(** * PDF-ChatBot-Backend: a shallow embedding of the ingestion and chat services

    The development follows the layout of the repository:
    - [PyStr]: the few operations on Python [str] the services rely on
      ([strip], truthiness, [join], [split]);
    - [TextSplitter]: [utils/text_splitter.py];
    - [Backend]: [models/pdf_chat.py], [services/pdf_service.py],
      [services/chat_service.py] and [api/v1/endpoints/chat.py], over an
      explicit world (session registry, embeddings directory, files) and an
      error monad for Python exceptions.

    Python strings are modelled by [string]; a character is a code point
    below 256. *)

From Stdlib Require Import ZArith Ascii String List Lia Bool.
From stdpp Require Import base option list gmap strings.

Local Open Scope string_scope.
Local Open Scope Z_scope.
Local Open Scope list_scope.

(** ** Python strings *)

Module PyStr.

(** The newline character, ["\n"]. *)
Definition nl : string := String (ascii_of_nat 10) EmptyString.

(** [len(s)] as a Python integer. *)
Definition len (s : string) : Z := Z.of_nat (String.length s).

(** Truthiness of a string: [bool(s)] is [False] only for [""]. *)
Definition truthy (s : string) : bool :=
  match s with
  | EmptyString => false
  | String _ _ => true
  end.

(** [str.isspace] on one character: the code points below 256 that
    [str.strip()] removes (tab to carriage return, the four information
    separators, space, next-line and no-break space). *)
Definition is_space (c : ascii) : bool :=
  let n := nat_of_ascii c in
  ((9 <=? n)%nat && (n <=? 13)%nat)
  || ((28 <=? n)%nat && (n <=? 32)%nat)
  || (n =? 133)%nat || (n =? 160)%nat.

(** [s.lstrip()] *)
Fixpoint lstrip (s : string) : string :=
  match s with
  | EmptyString => EmptyString
  | String c s' => if is_space c then lstrip s' else s
  end.

(** [s.rstrip()]: a character is dropped when it is white space and
    everything after it has been dropped too. *)
Fixpoint rstrip (s : string) : string :=
  match s with
  | EmptyString => EmptyString
  | String c s' =>
      match rstrip s' with
      | EmptyString => if is_space c then EmptyString else String c EmptyString
      | r => String c r
      end
  end.

(** [s.strip()] *)
Definition strip (s : string) : string := rstrip (lstrip s).

(** A string made of white space only (the empty string included). *)
Fixpoint all_space (s : string) : bool :=
  match s with
  | EmptyString => true
  | String c s' => is_space c && all_space s'
  end.

(** [sep.join(l)] *)
Definition join (sep : string) (l : list string) : string := String.concat sep l.

(** [s.startswith(p)] *)
Fixpoint startswith (p s : string) : bool :=
  match p, s with
  | EmptyString, _ => true
  | String _ _, EmptyString => false
  | String a p', String b s' => if Ascii.eqb a b then startswith p' s' else false
  end.

(** [list(s)]: the characters of [s] as one-character strings. *)
Fixpoint chars (s : string) : list string :=
  match s with
  | EmptyString => []
  | String c s' => String c EmptyString :: chars s'
  end.

(** Splitting on a literal, non-empty separator, as [re.split(re.escape(sep), s)]
    does: matches are found left to right and do not overlap; empty pieces
    are kept.  [skip] counts the characters of a match still to be consumed
    and [cur] holds the piece being read, reversed. *)
Fixpoint split_go (sep : string) (skip : nat) (cur : string) (s : string)
  : list string :=
  match s with
  | EmptyString => [String.rev cur]
  | String c s' =>
      match skip with
      | S k => split_go sep k cur s'
      | O =>
          if startswith sep s
          then String.rev cur :: split_go sep (Nat.pred (String.length sep)) EmptyString s'
          else split_go sep O (String c cur) s'
      end
  end.

Definition split (sep s : string) : list string := split_go sep O EmptyString s.

(** [needle in hay], as a proposition: [hay] is [pre + needle + post]. *)
Definition contains (hay needle : string) : Prop :=
  exists pre post, hay = pre +:+ needle +:+ post.

End PyStr.

(** ** utils/text_splitter.py *)

Module TextSplitter.
Import PyStr.

(** The parameters [split_text] passes to the splitter's constructor
    ([length_function] is [len]). *)
Record CharacterTextSplitter := {
  separator : string;
  chunk_size : Z;
  chunk_overlap : Z;
}.

Section Merge.
Variable ts : CharacterTextSplitter.

(** Modelled from the spec: [CharacterTextSplitter.split_text], the class
    that [split_text] instantiates, belongs to the text-splitting package
    the repository imports and is not part of the sources.  Section 4.1:
    the text is split on the separator first; the pieces are then packed
    greedily, in order, into chunks bounded by [chunk_size]; the tail of a
    finished chunk, up to [chunk_overlap] characters of it, is carried
    over as the head of the next one.  Pieces are never cut, and a chunk
    is the pieces joined by the separator, stripped; the loop below is
    that packing procedure, with the running length [total] of the
    current chunk. *)
Definition _split_text_with_regex (text : string) : list string :=
  let splits :=
    if truthy (separator ts) then split (separator ts) text else chars text in
  filter (fun s => s <> EmptyString) splits.

(** Modelled from the spec: joining the pieces of one chunk; a chunk that
    is empty once stripped is not produced. *)
Definition _join_docs (docs : list string) : option string :=
  let text := strip (join (separator ts) docs) in
  if truthy text then Some text else None.

(** Modelled from the spec: the length of the separator, which counts
    towards the length of a chunk between two pieces. *)
Definition separator_len : Z := len (separator ts).

(** Modelled from the spec: the separator is counted when the chunk holds
    more than [n] pieces. *)
Definition sep_if_longer (n : nat) (current_doc : list string) : Z :=
  if (n <? length current_doc)%nat then separator_len else 0.

(** Modelled from the spec: the overlap loop.  Pieces are dropped from the
    front of the finished chunk while what is left is longer than
    [chunk_overlap], or while what is left is non-empty and the next piece
    (of length [_len]) would not fit.  Reading [current_doc[0]] of an
    empty list raises, which is [None] here. *)
Fixpoint pop_overlap (_len : Z) (current_doc : list string) (total : Z)
  {struct current_doc} : option (list string * Z) :=
  if (chunk_overlap ts <? total)
     || ((chunk_size ts <? total + _len + sep_if_longer 0 current_doc)
         && (0 <? total))
  then
    match current_doc with
    | [] => None
    | d0 :: rest =>
        pop_overlap _len rest (total - (len d0 + sep_if_longer 1 current_doc))
    end
  else Some (current_doc, total).

(** Modelled from the spec: the state of the packing loop, that is the
    chunks produced so far, the pieces of the chunk being filled and their
    joined length. *)
Record merge_state := {
  docs : list string;
  current_doc : list string;
  total : Z;
}.

(** Modelled from the spec: a finished chunk is added to the chunks
    produced, unless stripping left nothing of it. *)
Definition emit (ds : list string) (cur : list string) : list string :=
  match _join_docs cur with
  | Some doc => ds ++ [doc]
  | None => ds
  end.

(** Modelled from the spec: one iteration of the packing loop, for the
    piece [d]. *)
Definition merge_step (st : merge_state) (d : string) : option merge_state :=
  let _len := len d in
  let after :=
    if chunk_size ts <? total st + _len + sep_if_longer 0 (current_doc st) then
      match current_doc st with
      | [] => Some st
      | _ :: _ =>
          match pop_overlap _len (current_doc st) (total st) with
          | Some (cur', total') =>
              Some {| docs := emit (docs st) (current_doc st);
                      current_doc := cur'; total := total' |}
          | None => None
          end
      end
    else Some st in
  match after with
  | Some st' =>
      let cur' := current_doc st' ++ [d] in
      Some {| docs := docs st'; current_doc := cur';
              total := total st' + _len + sep_if_longer 1 cur' |}
  | None => None
  end.

(** Modelled from the spec: the packing loop over the pieces, in order. *)
Fixpoint merge_loop (st : merge_state) (splits : list string)
  : option merge_state :=
  match splits with
  | [] => Some st
  | d :: rest =>
      match merge_step st d with
      | Some st' => merge_loop st' rest
      | None => None
      end
  end.

(** Modelled from the spec: packing the pieces into chunks. *)
Definition _merge_splits (splits : list string) : option (list string) :=
  match merge_loop {| docs := []; current_doc := []; total := 0 |} splits with
  | Some st => Some (emit (docs st) (current_doc st))
  | None => None
  end.

(** Modelled from the spec: [CharacterTextSplitter.split_text]. *)
Definition splitter_split_text (text : string) : option (list string) :=
  _merge_splits (_split_text_with_regex text).

End Merge.

(** [split_text] of [utils/text_splitter.py]: separator ["\n"], chunks of
    1000 characters overlapping by 200.  [None] stands for an exception
    raised by the splitter. *)
Definition default_splitter : CharacterTextSplitter :=
  {| separator := nl; chunk_size := 1000; chunk_overlap := 200 |}.

Definition split_text (text : string) : option (list string) :=
  splitter_split_text default_splitter text.

End TextSplitter.

(** ** The services *)

Module Backend.
Import PyStr TextSplitter.

(** Python exceptions, by the classes the services tell apart: [ValueError],
    [RuntimeError], and every other subclass of [Exception] (an [OSError]
    from [open], an [IndexError], a provider's own error). *)
Inductive exn :=
| ValueError (msg : string)
| RuntimeError (msg : string)
| Exception (msg : string).

(** [str(e)] *)
Definition str (e : exn) : string :=
  match e with
  | ValueError msg | RuntimeError msg | Exception msg => msg
  end.

Inductive result (A : Type) :=
| Ok (a : A)
| Raise (e : exn).
Arguments Ok {A} a.
Arguments Raise {A} e.

(** What a vector store returns for a query: an object that may or may not
    have a [page_content] attribute. *)
Record Document := { page_content : option string }.

(** The capabilities consumed from the vector-store and path libraries.
    [similarity_search kb query k] takes the optional [k] of the provider's
    signature; [None] is a call that leaves it to the provider's default. *)
Class Providers := {
  FAISS : Type;
  from_texts : list string -> result FAISS;
  has_similarity_search : FAISS -> bool;
  similarity_search : FAISS -> string -> option nat -> result (list Document);
  path_name : string -> string;
}.

(** A page of a PDF: what [page.extract_text()] does on it. *)
Record Page := { extract_text : result string }.

(** What is found at a path: something [PdfReader] rejects, or a PDF. *)
Inductive PdfFile :=
| Unreadable (msg : string)
| Readable (pages : list Page).

(** One entry of a session's history:
    [{"user": ..., "ai": ..., "timestamp": ...}]. *)
Record Exchange := { user : string; ai : string; timestamp : string }.

(** The value [get_response] returns:
    [{"response": ..., "chat_history": ...}]. *)
Record ChatResponse := { response : string; chat_history : list Exchange }.

(** What the outside world decides during one call: the identifier drawn by
    [uuid.uuid4()], the clock (the [n]-th reading of [datetime.utcnow()]
    within the call), whether [save_local] raises, and the chat model. *)
Record Env := {
  uuid4 : string;
  utcnow : nat -> string;
  save_local_raises : option string;
  model_invoke : string -> result string;
}.

(** Messages of the workflow state. *)
Inductive Message :=
| HumanMessage (content : string)
| AIMessage (content : string).

Definition content (m : Message) : string :=
  match m with
  | HumanMessage c | AIMessage c => c
  end.

(** [ChatState]: the typed dictionary the workflow threads through. *)
Record ChatState := { st_messages : list Message; st_context : string }.

(** Calls that leave the process, in the order they happen. *)
Inductive Event :=
| StorageGet (chat_id : string)
| KbLoad (path : string)
| PdfOpen (file_path : string)
| KbBuild (chunks : list string)
| KbSave (path : string)
| SimilaritySearch (query : string) (k : option nat)
| ModelInvoke (prompt : string).

Section Services.
Context `{Providers}.

(** [models/pdf_chat.py]: [PDFChat].  [metadata] is a dictionary with
    string keys. *)
Record PDFChat := {
  knowledge_base : FAISS;
  messages : list Exchange;
  metadata : gmap string string;
  created_at : string;
}.

(** The process and its surroundings: [chat_storage._storage], the files
    of the embeddings directory (by file name), the files PDFs are read
    from, and the log of outside calls. *)
Record World := {
  chat_storage : gmap string PDFChat;
  embeddings_dir : gmap string FAISS;
  files : gmap string PdfFile;
  trace : list Event;
}.

(** *** State and exceptions *)

Definition M (A : Type) : Type := World -> result A * World.

Definition ret {A} (a : A) : M A := fun w => (Ok a, w).

Definition bind {A B} (m : M A) (k : A -> M B) : M B :=
  fun w =>
    match m w with
    | (Ok a, w') => k a w'
    | (Raise e, w') => (Raise e, w')
    end.

Definition raise {A} (e : exn) : M A := fun w => (Raise e, w).

(** [try: m except Exception as e: h e]; what [m] did to the world before
    raising stays done. *)
Definition try_except {A} (m : M A) (h : exn -> M A) : M A :=
  fun w =>
    match m w with
    | (Ok a, w') => (Ok a, w')
    | (Raise e, w') => h e w'
    end.

Definition lift {A} (r : result A) : M A := fun w => (r, w).

(** The world with the calls [evs] added to its log. *)
Definition logged (evs : list Event) (w : World) : World :=
  {| chat_storage := chat_storage w;
     embeddings_dir := embeddings_dir w;
     files := files w;
     trace := trace w ++ evs |}.

Definition log (ev : Event) : M unit := fun w => (Ok tt, logged [ev] w).

(** The world with another registry, or another embeddings directory. *)
Definition with_storage (s : gmap string PDFChat) (w : World) : World :=
  {| chat_storage := s;
     embeddings_dir := embeddings_dir w;
     files := files w;
     trace := trace w |}.

Definition with_embeddings (d : gmap string FAISS) (w : World) : World :=
  {| chat_storage := chat_storage w;
     embeddings_dir := d;
     files := files w;
     trace := trace w |}.

Definition set_chat_storage (s : gmap string PDFChat) : M unit :=
  fun w => (Ok tt, with_storage s w).

Definition set_embeddings_dir (d : gmap string FAISS) : M unit :=
  fun w => (Ok tt, with_embeddings d w).

Definition world : M World := fun w => (Ok w, w).

Notation "x <~ m ;; k" := (bind m (fun x => k))
  (at level 100, m at next level, right associativity, only parsing).
Notation "m ;;; k" := (bind m (fun _ => k))
  (at level 100, right associativity, only parsing).

(** *** models/pdf_chat.py: [ChatStorage] *)

(** [chat_storage.get(chat_id)] *)
Definition storage_get (chat_id : string) : M (option PDFChat) :=
  log (StorageGet chat_id) ;;;
  w <~ world ;;
  ret (chat_storage w !! chat_id).

(** [chat_storage[chat_id] = chat] *)
Definition storage_setitem (chat_id : string) (chat : PDFChat) : M unit :=
  w <~ world ;;
  set_chat_storage (<[chat_id := chat]> (chat_storage w)).

(** [chat_storage.update(chat_id, chat)] *)
Definition storage_update (chat_id : string) (chat : PDFChat) : M unit :=
  w <~ world ;;
  set_chat_storage (<[chat_id := chat]> (chat_storage w)).

(** *** services/pdf_service.py: [PDFProcessor] *)

(** [self.embeddings_dir / f"{chat_id}.faiss"], relative to the
    embeddings directory. *)
Definition embedding_path (chat_id : string) : string := chat_id +:+ ".faiss".

Definition _save_knowledge_base (env : Env) (chat_id : string) (kb : FAISS)
  : M unit :=
  try_except
    (let embedding_path := embedding_path chat_id in
     log (KbSave embedding_path) ;;;
     match save_local_raises env with
     | Some msg => raise (Exception msg)
     | None =>
         w <~ world ;;
         set_embeddings_dir (<[embedding_path := kb]> (embeddings_dir w))
     end)
    (fun e => raise (RuntimeError ("Failed to save knowledge base: " +:+ str e))).

(** An index file that exists is one [FAISS.load_local] reads back. *)
Definition _load_knowledge_base (chat_id : string) : M (option FAISS) :=
  let embedding_path := embedding_path chat_id in
  log (KbLoad embedding_path) ;;;
  w <~ world ;;
  match embeddings_dir w !! embedding_path with
  | Some knowledge_base => ret (Some knowledge_base)
  | None => ret None
  end.

(** The generator of [_extract_text_from_pdf]:
    [page.extract_text() for page in pages if page.extract_text()]. *)
Fixpoint page_texts (pages : list Page) : result (list string) :=
  match pages with
  | [] => Ok []
  | page :: rest =>
      match extract_text page with
      | Raise e => Raise e
      | Ok t =>
          if truthy t then
            match extract_text page with
            | Raise e => Raise e
            | Ok t' =>
                match page_texts rest with
                | Ok ts => Ok (t' :: ts)
                | Raise e => Raise e
                end
            end
          else page_texts rest
      end
  end.

Definition _extract_text_from_pdf (file_path : string) : M string :=
  try_except
    (log (PdfOpen file_path) ;;;
     w <~ world ;;
     match files w !! file_path with
     | None =>
         raise (Exception ("[Errno 2] No such file or directory: '"
                           +:+ file_path +:+ "'"))
     | Some (Unreadable msg) => raise (Exception msg)
     | Some (Readable pages) =>
         ts <~ lift (page_texts pages) ;;
         ret (join "" ts)
     end)
    (fun e => raise (RuntimeError ("Failed to extract text from PDF: " +:+ str e))).

Definition _create_knowledge_base (text : string) : M FAISS :=
  try_except
    (match split_text text with
     | None => raise (Exception "list index out of range")
     | Some chunks =>
         log (KbBuild chunks) ;;;
         lift (from_texts chunks)
     end)
    (fun e => raise (RuntimeError ("Failed to create knowledge base: " +:+ str e))).

Definition process_pdf (env : Env) (file_path : string) : M string :=
  try_except
    (let chat_id := uuid4 env in
     text <~ _extract_text_from_pdf file_path ;;
     knowledge_base <~ _create_knowledge_base text ;;
     _save_knowledge_base env chat_id knowledge_base ;;;
     let chat :=
       {| knowledge_base := knowledge_base;
          messages := [];
          metadata :=
            <["file_path" := file_path]>
              (<["created_at" := utcnow env 0]>
                 (<["file_name" := path_name file_path]> ∅));
          created_at := utcnow env 1 |} in
     storage_setitem chat_id chat ;;;
     ret chat_id)
    (fun e => raise (RuntimeError ("Failed to process PDF: " +:+ str e))).

Definition get_or_create_knowledge_base (env : Env) (chat_id : string)
  : M (option FAISS) :=
  try_except
    (knowledge_base <~ _load_knowledge_base chat_id ;;
     match knowledge_base with
     | Some knowledge_base => ret (Some knowledge_base)
     | None =>
         chat_data <~ storage_get chat_id ;;
         match chat_data with
         | Some chat_data =>
             match metadata chat_data !! "file_path" with
             | Some file_path =>
                 if truthy file_path then
                   text <~ _extract_text_from_pdf file_path ;;
                   knowledge_base <~ _create_knowledge_base text ;;
                   _save_knowledge_base env chat_id knowledge_base ;;;
                   ret (Some knowledge_base)
                 else ret None
             | None => ret None
             end
         | None => ret None
         end
     end)
    (fun e => raise (RuntimeError ("Failed to retrieve knowledge base: " +:+ str e))).

(** *** services/chat_service.py: [ChatService] *)

(** [state["messages"][-1].content]; indexing an empty list raises
    [IndexError]. *)
Definition last_content (msgs : list Message) : M string :=
  match last msgs with
  | Some m => ret (content m)
  | None => raise (Exception "list index out of range")
  end.

(** [hasattr(doc, "page_content")] *)
Definition has_page_content (doc : Document) : bool :=
  match page_content doc with
  | Some _ => true
  | None => false
  end.

Definition _search_chunks (state : ChatState) (knowledge_base : FAISS)
  : M ChatState :=
  try_except
    (user_question <~ last_content (st_messages state) ;;
     if negb (has_similarity_search knowledge_base) then
       raise (ValueError "Invalid knowledge base format")
     else
       log (SimilaritySearch user_question None) ;;;
       docs <~ lift (similarity_search knowledge_base user_question None) ;;
       if negb (forallb has_page_content docs) then
         raise (ValueError "Invalid document format in knowledge base")
       else
         let pdf_context := join " " (omap page_content docs) in
         ret {| st_messages := st_messages state; st_context := pdf_context |})
    (fun e => raise (RuntimeError ("Failed to search document chunks: " +:+ str e))).

(** The prompt of [_call_model]. *)
Definition combined_input (pdf_context user_question : string) : string :=
  "Context from PDF:" +:+ nl +:+ pdf_context +:+ nl +:+ nl
  +:+ "User Question: " +:+ user_question +:+ nl +:+ nl
  +:+ "Please provide a response based on the context above.".

(** The state is a dictionary with both keys, so the format check of
    [_call_model] passes; [str] of a string is the string. *)
Definition _call_model (env : Env) (state : ChatState) : M ChatState :=
  try_except
    (let pdf_context := st_context state in
     user_question <~ last_content (st_messages state) ;;
     let combined_input := combined_input pdf_context user_question in
     log (ModelInvoke combined_input) ;;;
     response <~ lift (model_invoke env combined_input) ;;
     ret {| st_messages := st_messages state ++ [AIMessage response];
            st_context := st_context state |})
    (fun e => raise (RuntimeError ("Failed to generate model response: " +:+ str e))).

(** The compiled workflow of [_create_workflow], streamed with
    [stream_mode="values"]: entry point [search], edge to [model], finish
    there; the values are the state on entry and after each node.  The
    keys of [ChatState] have no reducer, so the input of a call replaces
    what the checkpointer kept for the thread. *)
Definition stream (env : Env) (knowledge_base : FAISS) (initial_state : ChatState)
  : M (list ChatState) :=
  after_search <~ _search_chunks initial_state knowledge_base ;;
  after_model <~ _call_model env after_search ;;
  ret [initial_state; after_search; after_model].

(** An attribute assignment or [append] on the session object: the
    registry holds the same object, so it sees the new value. *)
Definition mutate_in_place (chat_id : string) (chat_data : PDFChat) : M unit :=
  w <~ world ;;
  set_chat_storage (<[chat_id := chat_data]> (chat_storage w)).

(** [chat_id] and [user_question] are strings (the route and the request
    schema type them), so the [isinstance] tests pass.  A session object
    and a vector store are truthy, so [not chat_data] and
    [not knowledge_base] test for [None]. *)
Definition get_response (env : Env) (chat_id user_question : string)
  : M ChatResponse :=
  try_except
    (if negb (truthy (strip chat_id)) then raise (ValueError "Invalid chat ID")
     else if negb (truthy (strip user_question)) then
       raise (ValueError "Invalid user question")
     else
       chat_data <~ storage_get chat_id ;;
       match chat_data with
       | None => raise (ValueError ("Chat session not found for ID: " +:+ chat_id))
       | Some chat_data =>
           knowledge_base <~ get_or_create_knowledge_base env chat_id ;;
           match knowledge_base with
           | None =>
               raise (ValueError ("Knowledge base not found for chat ID: " +:+ chat_id))
           | Some knowledge_base =>
               let chat_data :=
                 {| knowledge_base := knowledge_base;
                    messages := messages chat_data;
                    metadata := metadata chat_data;
                    created_at := created_at chat_data |} in
               mutate_in_place chat_id chat_data ;;;
               let initial_state :=
                 {| st_messages := [HumanMessage user_question];
                    st_context := "" |} in
               events <~ stream env knowledge_base initial_state ;;
               match last events with
               | None => raise (RuntimeError "No response generated from the model")
               | Some last_event =>
                   ai_response <~ last_content (st_messages last_event) ;;
                   let chat_data :=
                     {| knowledge_base := knowledge_base;
                        messages :=
                          messages chat_data
                          ++ [ {| user := user_question;
                                  ai := ai_response;
                                  timestamp := utcnow env 0 |} ];
                        metadata := metadata chat_data;
                        created_at := created_at chat_data |} in
                   mutate_in_place chat_id chat_data ;;;
                   storage_update chat_id chat_data ;;;
                   ret {| response := ai_response;
                          chat_history := messages chat_data |}
               end
           end
       end)
    (fun e =>
       match e with
       | ValueError _ => raise e
       | _ => raise (RuntimeError ("Failed to process chat message: " +:+ str e))
       end).

(** *** api/v1/endpoints/chat.py *)

(** What the route hands to the web framework: the response, an
    [HTTPException], or an exception it did not catch. *)
Inductive HttpOutcome :=
| Returned (body : ChatResponse)
| HTTPException (status_code : Z) (detail : string)
| Uncaught (e : exn).

Definition chat (env : Env) (chat_id question : string) (w : World)
  : HttpOutcome * World :=
  match get_response env chat_id question w with
  | (Ok response, w') => (Returned response, w')
  | (Raise (ValueError msg), w') => (HTTPException 404 msg, w')
  | (Raise e, w') => (Uncaught e, w')
  end.

End Services.

End Backend.

(** ** Vocabulary for the text splitter *)

Module ChunkSpec.
Import PyStr TextSplitter.

Section Packing.
Variable ts : CharacterTextSplitter.

(** The length of [separator.join(pieces)]. *)
Fixpoint joined_len (pieces : list string) : Z :=
  match pieces with
  | [] => 0
  | d :: rest =>
      len d + match rest with
              | [] => 0
              | _ :: _ => separator_len ts + joined_len rest
              end
  end.

(** What the packing loop maintains: [total] is the joined length of the
    pieces of the chunk being filled. *)
Definition total_tracks (st : merge_state) : Prop :=
  total st = joined_len (current_doc st).

(** What it maintains in addition when no piece is longer than
    [chunk_size]: the chunk being filled fits, holds no empty piece, and
    the chunks produced fit. *)
Definition all_fit (st : merge_state) : Prop :=
  total st <= chunk_size ts
  /\ Forall (fun d => d <> EmptyString) (current_doc st)
  /\ Forall (fun c => len c <= chunk_size ts) (docs st).

End Packing.

(** The first [n] characters of a string. *)
Fixpoint take_chars (n : nat) (s : string) : string :=
  match n, s with
  | S n', String c s' => String c (take_chars n' s')
  | _, _ => EmptyString
  end.

(** A string without its first [n] characters. *)
Fixpoint drop_chars (n : nat) (s : string) : string :=
  match n, s with
  | S n', String _ s' => drop_chars n' s'
  | _, _ => s
  end.

(** The last [n] characters of a string. *)
Definition tail_chars (n : nat) (s : string) : string :=
  drop_chars (String.length s - n) s.

(** Re-concatenation with the overlap duplication removed, as the
    specification words it: the first chunk, then every later chunk without
    its first [overlap] characters. *)
Definition reassemble (overlap : nat) (chunks : list string) : string :=
  match chunks with
  | [] => EmptyString
  | c :: rest => c +:+ String.concat EmptyString (map (drop_chars overlap) rest)
  end.

(** Two consecutive chunks share exactly [overlap] characters: the last
    [overlap] characters of the first are the first [overlap] of the
    second. *)
Definition share_exactly (overlap : nat) (c1 c2 : string) : Prop :=
  (overlap <= String.length c1)%nat
  /\ (overlap <= String.length c2)%nat
  /\ tail_chars overlap c1 = take_chars overlap c2.

(** Every pair of consecutive chunks shares exactly [overlap] characters,
    the pair that ends the text excepted. *)
Fixpoint overlaps_exactly (overlap : nat) (chunks : list string) : Prop :=
  match chunks with
  | c1 :: ((c2 :: rest) as later) =>
      (rest = [] \/ share_exactly overlap c1 c2) /\ overlaps_exactly overlap later
  | _ => True
  end.

(** The chunking property as the specification states it. *)
Definition chunking_as_specified : Prop :=
  forall text,
    text <> EmptyString ->
    exists chunks,
      split_text text = Some chunks
      /\ reassemble 200 chunks = text
      /\ Forall (fun c => len c <= 1000) chunks
      /\ overlaps_exactly 200 chunks.

End ChunkSpec.

(** ** Vocabulary for the services *)

Module Observations.
Import PyStr TextSplitter Backend.

Section Views.
Context `{Providers}.

(** A session from which no index can be rebuilt: it is not registered, or
    its metadata holds no usable [file_path]. *)
Definition no_source (w : World) (chat_id : string) : Prop :=
  match chat_storage w !! chat_id with
  | None => True
  | Some chat_data =>
      metadata chat_data !! "file_path" = None
      \/ metadata chat_data !! "file_path" = Some ""
  end.

(** The workflow on the state a chat call starts it with. *)
Definition first_state (user_question : string) : ChatState :=
  {| st_messages := [HumanMessage user_question]; st_context := "" |}.

(** The state after the [search] node, and after the [model] node. *)
Definition searched_state (user_question pdf_context : string) : ChatState :=
  {| st_messages := [HumanMessage user_question]; st_context := pdf_context |}.

Definition answered_state (user_question pdf_context answer : string) : ChatState :=
  {| st_messages := [HumanMessage user_question; AIMessage answer];
     st_context := pdf_context |}.

(** The context string built from search results. *)
Definition context_of (docs : list Document) : string :=
  join " " (omap page_content docs).

(** What [_extract_text_from_pdf] returns for a path, given the files. *)
Definition extracted (w : World) (file_path : string) : result string :=
  match files w !! file_path with
  | None =>
      Raise (RuntimeError ("Failed to extract text from PDF: "
                           +:+ "[Errno 2] No such file or directory: '"
                           +:+ file_path +:+ "'"))
  | Some (Unreadable msg) =>
      Raise (RuntimeError ("Failed to extract text from PDF: " +:+ msg))
  | Some (Readable pages) =>
      match page_texts pages with
      | Ok ts => Ok (join "" ts)
      | Raise e => Raise (RuntimeError ("Failed to extract text from PDF: " +:+ str e))
      end
  end.

(** What [_create_knowledge_base] returns for a text. *)
Definition built (text : string) : result FAISS :=
  match split_text text with
  | None =>
      Raise (RuntimeError "Failed to create knowledge base: list index out of range")
  | Some chunks =>
      match from_texts chunks with
      | Ok knowledge_base => Ok knowledge_base
      | Raise e => Raise (RuntimeError ("Failed to create knowledge base: " +:+ str e))
      end
  end.

(** What [_create_knowledge_base] logs: the build, when the text could be
    chunked. *)
Definition build_log (text : string) : list Event :=
  match split_text text with
  | None => []
  | Some chunks => [KbBuild chunks]
  end.

(** Events of retrieval and generation, as opposed to those of
    knowledge-base resolution. *)
Definition is_search (ev : Event) : bool :=
  match ev with SimilaritySearch _ _ => true | _ => false end.

Definition is_model_call (ev : Event) : bool :=
  match ev with ModelInvoke _ => true | _ => false end.

(** A log without search and without model call. *)
Definition resolution_only (evs : list Event) : Prop :=
  Forall (fun ev => is_search ev = false /\ is_model_call ev = false) evs.

(** The session object after [chat_data.knowledge_base = knowledge_base]
    and after an exchange is appended to [chat_data.messages]. *)
Definition refreshed (chat_data : PDFChat) (knowledge_base : FAISS) : PDFChat :=
  {| knowledge_base := knowledge_base;
     messages := messages chat_data;
     metadata := metadata chat_data;
     created_at := created_at chat_data |}.

Definition recorded (chat_data : PDFChat) (x : Exchange) : PDFChat :=
  {| knowledge_base := knowledge_base chat_data;
     messages := messages chat_data ++ [x];
     metadata := metadata chat_data;
     created_at := created_at chat_data |}.

(** The entry a call appends: question, answer and the time of the call. *)
Definition exchange (env : Env) (user_question answer : string) : Exchange :=
  {| user := user_question; ai := answer; timestamp := utcnow env 0 |}.

(** The error [get_response] raises for anything but a [ValueError]. *)
Definition processing_failure (msg : string) : exn :=
  RuntimeError ("Failed to process chat message: " +:+ msg).

(** A chat call from the point where its knowledge base is resolved. *)
Definition answer_turn (env : Env) (chat_id user_question : string)
    (chat_data : PDFChat) (knowledge_base : FAISS) (w1 : World)
  : result ChatResponse * World :=
  let w2 :=
    with_storage (<[chat_id := refreshed chat_data knowledge_base]> (chat_storage w1))
      w1 in
  if negb (has_similarity_search knowledge_base) then
    (Raise (processing_failure
              "Failed to search document chunks: Invalid knowledge base format"),
     w2)
  else
    let w3 := logged [SimilaritySearch user_question None] w2 in
    match similarity_search knowledge_base user_question None with
    | Raise e =>
        (Raise (processing_failure
                  ("Failed to search document chunks: " +:+ str e)), w3)
    | Ok docs =>
        if negb (forallb has_page_content docs) then
          (Raise (processing_failure
                    "Failed to search document chunks: Invalid document format in knowledge base"),
           w3)
        else
          let prompt := combined_input (context_of docs) user_question in
          let w4 := logged [SimilaritySearch user_question None;
                            ModelInvoke prompt] w2 in
          match model_invoke env prompt with
          | Raise e =>
              (Raise (processing_failure
                        ("Failed to generate model response: " +:+ str e)), w4)
          | Ok answer =>
              let chat_data' :=
                recorded (refreshed chat_data knowledge_base)
                  (exchange env user_question answer) in
              (Ok {| response := answer; chat_history := messages chat_data' |},
               with_storage (<[chat_id := chat_data']> (chat_storage w1)) w4)
          end
    end.

(** The session [process_pdf] registers. *)
Definition new_chat (env : Env) (file_path : string) (kb : FAISS) : PDFChat :=
  {| knowledge_base := kb;
     messages := [];
     metadata :=
       <["file_path" := file_path]>
         (<["created_at" := utcnow env 0]>
            (<["file_name" := path_name file_path]> ∅));
     created_at := utcnow env 1 |}.

(** The error [process_pdf] raises, with its cause. *)
Definition ingestion_failure (e : exn) : exn :=
  RuntimeError ("Failed to process PDF: " +:+ str e).

(** The history of a session, empty when there is no such session. *)
Definition history (w : World) (chat_id : string) : list Exchange :=
  match chat_storage w !! chat_id with
  | Some chat_data => messages chat_data
  | None => []
  end.

(** One chat call, with the environment it runs in. *)
Record Call := {
  call_env : Env;
  call_chat_id : string;
  call_question : string;
}.

(** What a call adds to the history of the session [chat_id]. *)
Definition added (chat_id : string) (c : Call) (r : result ChatResponse)
  : list Exchange :=
  match r with
  | Ok resp =>
      if decide (call_chat_id c = chat_id)
      then [exchange (call_env c) (call_question c) (response resp)]
      else []
  | Raise _ => []
  end.

(** Chat calls one after the other; the results, in call order. *)
Fixpoint run_chats (calls : list Call) (w : World)
  : list (result ChatResponse) * World :=
  match calls with
  | [] => ([], w)
  | c :: rest =>
      let '(r, w1) := get_response (call_env c) (call_chat_id c) (call_question c) w in
      let '(rs, w2) := run_chats rest w1 in
      (r :: rs, w2)
  end.

(** What a run of calls adds to the history of the session [chat_id], in
    call order. *)
Fixpoint exchanges_of (chat_id : string) (calls : list Call)
    (results : list (result ChatResponse)) : list Exchange :=
  match calls, results with
  | c :: calls', r :: results' =>
      added chat_id c r ++ exchanges_of chat_id calls' results'
  | _, _ => []
  end.

(** The number of successful calls on the session [chat_id]. *)
Fixpoint successes (chat_id : string) (calls : list Call)
    (results : list (result ChatResponse)) : nat :=
  match calls, results with
  | c :: calls', r :: results' =>
      (match r with
       | Ok _ => if decide (call_chat_id c = chat_id) then 1 else 0
       | Raise _ => 0
       end + successes chat_id calls' results')%nat
  | _, _ => 0%nat
  end.

(** The text a page contributes under the lenient reading of the
    specification: its extracted text when there is one, nothing when the
    text is empty or the extraction fails. *)
Definition lenient_page_text (page : Page) : option string :=
  match extract_text page with
  | Ok t => if truthy t then Some t else None
  | Raise _ => None
  end.

(** The texts of the pages that contribute one, in page order. *)
Definition lenient_page_texts (pages : list Page) : list string :=
  omap lenient_page_text pages.

(** A page whose extraction does not raise. *)
Definition page_ok (page : Page) : bool :=
  match extract_text page with
  | Ok _ => true
  | Raise _ => false
  end.

(** The lenient reading of extraction, as the specification states it: an
    unreadable page is skipped like an empty one. *)
Definition extraction_skips_failing_pages : Prop :=
  forall w file_path pages,
    files w !! file_path = Some (Readable pages) ->
    fst (_extract_text_from_pdf file_path w)
    = Ok (join "" (lenient_page_texts pages)).

(** The not-found kind reserved for unknown sessions, as the
    specification states it. *)
Definition not_found_means_unknown_session : Prop :=
  forall env chat_id question w detail,
    fst (chat env chat_id question w) = HTTPException 404 detail ->
    chat_storage w !! chat_id = None.

(** Self-healing without condition, as the specification states it: a
    well-formed chat call on a registered session whose index file is
    absent succeeds. *)
Definition rebuild_always_succeeds : Prop :=
  forall env chat_id user_question w,
    all_space chat_id = false ->
    all_space user_question = false ->
    is_Some (chat_storage w !! chat_id) ->
    embeddings_dir w !! embedding_path chat_id = None ->
    exists resp w', get_response env chat_id user_question w = (Ok resp, w').

End Views.

End Observations.

(** ** A small instance to run the services on *)

Module Demo.
Import PyStr TextSplitter Backend Observations.

(** A vector store that keeps the chunks and returns the first [k] of them
    (four by default); building it from no chunk raises. *)
Definition demo_providers : Providers :=
  {| FAISS := list string;
     from_texts := fun chunks =>
       match chunks with
       | [] => Raise (Exception "list index out of range")
       | _ :: _ => Ok chunks
       end;
     has_similarity_search := fun _ => true;
     similarity_search := fun kb _ k =>
       Ok (map (fun c => {| page_content := Some c |}) (take (default 4%nat k) kb));
     path_name := fun p => p |}.

#[local] Existing Instance demo_providers.

(** An environment in which nothing fails; the model echoes its prompt. *)
Definition demo_env : Env :=
  {| uuid4 := "3f2b";
     utcnow := fun _ => "2024-11-02T10:00:00";
     save_local_raises := None;
     model_invoke := fun prompt => Ok ("echo: " +:+ prompt) |}.

(** The same environment with a full disk. *)
Definition full_disk_env : Env :=
  {| uuid4 := "3f2b";
     utcnow := fun _ => "2024-11-02T10:00:00";
     save_local_raises := Some "[Errno 28] No space left on device";
     model_invoke := fun prompt => Ok ("echo: " +:+ prompt) |}.

(** The same environment with the chat model out of reach. *)
Definition offline_env : Env :=
  {| uuid4 := "3f2b";
     utcnow := fun _ => "2024-11-02T10:00:00";
     save_local_raises := None;
     model_invoke := fun _ => Raise (Exception "connection refused") |}.

Definition sky_pdf : PdfFile :=
  Readable [ {| extract_text := Ok "The sky is blue." |};
             {| extract_text := Ok "" |};
             {| extract_text := Ok " Grass is green." |} ].

Definition blank_pdf : PdfFile :=
  Readable [ {| extract_text := Ok "" |}; {| extract_text := Ok "" |} ].

Definition torn_pdf : PdfFile :=
  Readable [ {| extract_text := Ok "first" |};
             {| extract_text := Raise (Exception "bad xref table") |};
             {| extract_text := Ok "third" |} ].

(** Nothing registered, nothing persisted, three uploaded files. *)
Definition fresh_world : @World demo_providers :=
  {| chat_storage := ∅;
     embeddings_dir := ∅;
     files := {[ "uploads/sky.pdf" := sky_pdf;
                 "uploads/blank.pdf" := blank_pdf;
                 "uploads/torn.pdf" := torn_pdf ]};
     trace := [] |}.

(** The world after [uploads/sky.pdf] was ingested. *)
Definition sky_world : @World demo_providers :=
  snd (process_pdf demo_env "uploads/sky.pdf" fresh_world).

(** [sky_world] once the persisted index has been removed from the
    embeddings directory. *)
Definition sky_world_index_lost : @World demo_providers :=
  with_embeddings (delete (embedding_path "3f2b") (embeddings_dir sky_world))
    sky_world.

(** [sky_world_index_lost] once the uploaded file is gone as well. *)
Definition sky_world_source_gone : @World demo_providers :=
  {| chat_storage := chat_storage sky_world_index_lost;
     embeddings_dir := embeddings_dir sky_world_index_lost;
     files := ∅;
     trace := trace sky_world_index_lost |}.

(** An index file left in the embeddings directory for an id no session
    has. *)
Definition orphan_index_world : @World demo_providers :=
  {| chat_storage := ∅;
     embeddings_dir := {[ "ghost.faiss" := ["a chunk"] ]};
     files := ∅;
     trace := [] |}.

Definition sky_text : string := "The sky is blue. Grass is green.".

Definition sky_question : string := "What color is the sky?".

(** The session [process_pdf] registers for [uploads/sky.pdf]. *)
Definition sky_chat : @PDFChat demo_providers :=
  {| knowledge_base := [sky_text];
     messages := [];
     metadata :=
       <["file_path" := "uploads/sky.pdf"]>
         (<["created_at" := "2024-11-02T10:00:00"]>
            (<["file_name" := "uploads/sky.pdf"]> ∅));
     created_at := "2024-11-02T10:00:00" |}.

(** What the echoing model answers to [sky_question]. *)
Definition sky_response : ChatResponse :=
  let answer := "echo: " +:+ combined_input sky_text sky_question in
  {| response := answer;
     chat_history :=
       [ {| user := sky_question; ai := answer;
            timestamp := "2024-11-02T10:00:00" |} ] |}.

(** [n] copies of the character [c]. *)
Fixpoint replicate_char (n : nat) (c : ascii) : string :=
  match n with
  | O => EmptyString
  | S n' => String c (replicate_char n' c)
  end.

(** Three calls: one answered, one with a blank question, one answered. *)
Definition sky_calls : list Call :=
  [ {| call_env := demo_env; call_chat_id := "3f2b"; call_question := sky_question |};
    {| call_env := demo_env; call_chat_id := "3f2b"; call_question := "  " |};
    {| call_env := demo_env; call_chat_id := "3f2b"; call_question := "And grass?" |} ].

End Demo.

(** ** The rest of the registry, the upload route and the configuration *)

Module Routes.
Import PyStr TextSplitter Backend.

(** [s.endswith(suffix)] *)
Definition endswith (suffix s : string) : bool :=
  startswith (String.rev suffix) (String.rev s).

(** [os.path.join(a, b)] on a POSIX system: an absolute [b] replaces [a];
    otherwise [b] is appended, after a [/] unless [a] is empty or already
    ends with one. *)
Definition os_path_join (a b : string) : string :=
  if startswith "/" b || negb (truthy a) then b
  else if endswith "/" a then a +:+ b
  else a +:+ "/" +:+ b.

(** [api/v1/endpoints/upload.py]: [UPLOAD_DIRECTORY]. *)
Definition UPLOAD_DIRECTORY : string := "./uploads".

(** An uploaded file: its name and its bytes, given as what a PDF reader
    makes of them. *)
Record UploadFile := { filename : string; file_content : PdfFile }.

(** What the upload route hands to the web framework: an [UploadResponse]
    or an [HTTPException]. *)
Inductive UploadOutcome :=
| UploadResponse (chat_id : string)
| UploadHTTPException (status_code : Z) (detail : string).

(** [core/config.py]: [load_env], on the process environment.
    [load_dotenv] is the library's loader; assigning [None] to a key of
    [os.environ] raises [TypeError]. *)
Definition load_env (load_dotenv : gmap string string -> gmap string string)
    (environ : gmap string string) : result (gmap string string) :=
  let environ := load_dotenv environ in
  match environ !! "OPENAI_API_KEY" with
  | Some value => Ok (<["OPENAI_API_KEY" := value]> environ)
  | None => Raise (Exception "str expected, not NoneType")
  end.

Section Registry.
Context `{Providers}.

(** The world with other files. *)
Definition with_files (fs : gmap string PdfFile) (w : World) : World :=
  {| chat_storage := chat_storage w;
     embeddings_dir := embeddings_dir w;
     files := fs;
     trace := trace w |}.

(** [models/pdf_chat.py]: [chat_storage.delete(chat_id)], that is
    [self._storage.pop(chat_id, None)]. *)
Definition storage_delete (chat_id : string) : M unit :=
  bind world (fun w => set_chat_storage (delete chat_id (chat_storage w))).

(** [api/v1/endpoints/upload.py]: [upload_pdf].  [open_raises] says whether
    opening the target for writing fails; the bytes written replace what
    was at the path. *)
Definition upload_pdf (env : Env) (open_raises : option string)
    (file : UploadFile) (w : World) : UploadOutcome * World :=
  let file_path := os_path_join UPLOAD_DIRECTORY (filename file) in
  match open_raises with
  | Some msg => (UploadHTTPException 500 msg, w)
  | None =>
      let w1 := with_files (<[file_path := file_content file]> (files w)) w in
      match process_pdf env file_path w1 with
      | (Ok chat_id, w2) => (UploadResponse chat_id, w2)
      | (Raise e, w2) => (UploadHTTPException 500 (str e), w2)
      end
  end.

(** The answer of a call, or the exception it raised. *)
Definition answer_of (r : result ChatResponse) : result string :=
  match r with
  | Ok resp => Ok (response resp)
  | Raise e => Raise e
  end.

(** Events of a rebuild: opening a PDF, building and saving an index. *)
Definition is_rebuild (ev : Event) : bool :=
  match ev with
  | PdfOpen _ | KbBuild _ | KbSave _ => true
  | _ => false
  end.

End Registry.

End Routes.

(** ** Further instances *)

Module Workbench.
Import PyStr TextSplitter Backend Observations Routes Demo.

(** A vector store given by a number: store 0 cannot be searched, store 1
    raises when searched, store 2 returns a document without text, every
    other store returns one chunk.  A store is built as the number of its
    chunks. *)
Definition fragile_providers : Providers :=
  {| FAISS := nat;
     from_texts := fun chunks => Ok (length chunks);
     has_similarity_search := fun kb => negb (kb =? 0)%nat;
     similarity_search := fun kb _ _ =>
       match kb with
       | 1%nat => Raise (Exception "index corrupted")
       | 2%nat => Ok [ {| page_content := None |} ]
       | _ => Ok [ {| page_content := Some "a chunk" |} ]
       end;
     path_name := fun p => p |}.

(** One session, ["s"], whose persisted index is the store [kb]. *)
Definition fragile_world (kb : nat) : @World fragile_providers :=
  {| chat_storage :=
       {[ "s" := {| knowledge_base := (kb : @FAISS fragile_providers);
                    messages := [];
                    metadata := {[ "file_path" := "f.pdf" ]};
                    created_at := "2024-11-02T10:00:00" |} ]};
     embeddings_dir := {[ "s.faiss" := kb ]};
     files := ∅;
     trace := [] |}.

(** [sky.pdf] as uploaded, and another document uploaded under the same
    name. *)
Definition sky_upload : UploadFile :=
  {| filename := "sky.pdf"; file_content := sky_pdf |}.

Definition sea_pdf : PdfFile :=
  Readable [ {| extract_text := Ok "The sea is deep." |} ].

Definition sea_upload : UploadFile :=
  {| filename := "sky.pdf"; file_content := sea_pdf |}.

Definition torn_upload : UploadFile :=
  {| filename := "torn.pdf"; file_content := torn_pdf |}.

(** The environment of a second upload: another identifier is drawn. *)
Definition second_env : Env :=
  {| uuid4 := "7c1d";
     utcnow := fun _ => "2024-11-02T11:00:00";
     save_local_raises := None;
     model_invoke := fun prompt => Ok ("echo: " +:+ prompt) |}.

(** Nothing registered, nothing stored. *)
Definition empty_world : @World demo_providers :=
  {| chat_storage := ∅; embeddings_dir := ∅; files := ∅; trace := [] |}.

(** [sky.pdf] uploaded into the empty world. *)
Definition uploaded_world : @World demo_providers :=
  snd (@upload_pdf demo_providers demo_env None sky_upload empty_world).

(** An index to save over the one of the sky session. *)
Definition new_index : @FAISS demo_providers := ["new chunk"].

(** The session the upload of [sky.pdf] registers. *)
Definition uploaded_sky_chat : @PDFChat demo_providers :=
  {| knowledge_base := ([sky_text] : @FAISS demo_providers);
     messages := [];
     metadata :=
       <["file_path" := "./uploads/sky.pdf"]>
         (<["created_at" := "2024-11-02T10:00:00"]>
            (<["file_name" := "./uploads/sky.pdf"]> ∅));
     created_at := "2024-11-02T10:00:00" |}.

End Workbench.

(** ** Facts about strings *)

Module PyStrFacts.
Import PyStr.

Lemma lstrip_all_space s : all_space s = true -> lstrip s = EmptyString.
Proof.
  induction s as [|c s IH]; simpl; [done|].
  intros [Hc Hs]%andb_true_iff. rewrite Hc. auto.
Qed.

Lemma strip_all_space s : all_space s = true -> strip s = EmptyString.
Proof. intros Hs. unfold strip. by rewrite lstrip_all_space. Qed.

Lemma rstrip_empty_all_space s : rstrip s = EmptyString -> all_space s = true.
Proof.
  induction s as [|c s IH]; simpl; [done|].
  destruct (rstrip s) eqn:Hr; [|done].
  destruct (is_space c); [|done]. intros _. by rewrite IH.
Qed.

Lemma lstrip_keeps_non_space s :
  all_space (lstrip s) = true -> all_space s = true.
Proof.
  induction s as [|c s IH]; simpl; [done|].
  destruct (is_space c) eqn:Hc; simpl; [exact IH|].
  by rewrite Hc.
Qed.

(** [s.strip()] is empty exactly when [s] consists of white space. *)
Lemma strip_empty_iff s : strip s = EmptyString <-> all_space s = true.
Proof.
  split; [|apply strip_all_space].
  unfold strip. intros Hs. by apply lstrip_keeps_non_space, rstrip_empty_all_space.
Qed.

Lemma truthy_strip s : truthy (strip s) = negb (all_space s).
Proof.
  destruct (all_space s) eqn:Hs; simpl.
  - by rewrite strip_all_space.
  - destruct (strip s) eqn:Hstrip; [|done].
    apply strip_empty_iff in Hstrip. congruence.
Qed.

Lemma append_cons c (s t : string) : String c s +:+ t = String c (s +:+ t).
Proof. reflexivity. Qed.

Lemma length_append (s1 s2 : string) :
  String.length (s1 +:+ s2) = (String.length s1 + String.length s2)%nat.
Proof.
  induction s1 as [|c s1 IH]; [done|].
  rewrite append_cons. simpl. by rewrite IH.
Qed.

Lemma append_assoc (s1 s2 s3 : string) : (s1 +:+ s2) +:+ s3 = s1 +:+ s2 +:+ s3.
Proof.
  induction s1 as [|c s1 IH]; [done|].
  rewrite !append_cons. by f_equal.
Qed.

End PyStrFacts.

(** ** Properties of the text splitter *)

Module SplitterProps.
Import PyStr PyStrFacts TextSplitter ChunkSpec.

Section Packing.
Variable ts : CharacterTextSplitter.

#[local] Abbreviation joined_len := (ChunkSpec.joined_len ts).
#[local] Abbreviation total_tracks := (ChunkSpec.total_tracks ts).
#[local] Abbreviation all_fit := (ChunkSpec.all_fit ts).

Lemma len_nonneg s : 0 <= len s.
Proof. unfold len. lia. Qed.

Lemma separator_len_nonneg : 0 <= separator_len ts.
Proof. apply len_nonneg. Qed.

Lemma joined_len_nonneg pieces : 0 <= joined_len pieces.
Proof.
  induction pieces as [|d rest IH]; simpl; [lia|].
  pose proof (len_nonneg d). pose proof separator_len_nonneg.
  destruct rest; lia.
Qed.

Lemma len_join pieces : len (join (separator ts) pieces) = joined_len pieces.
Proof.
  unfold join. induction pieces as [|d rest IH]; [done|].
  destruct rest as [|d' rest].
  - simpl. lia.
  - change (String.concat (separator ts) (d :: d' :: rest))
      with (d +:+ separator ts +:+ String.concat (separator ts) (d' :: rest)).
    unfold len in *. rewrite !length_append, !Nat2Z.inj_add, IH.
    change (joined_len (d :: d' :: rest))
      with (len d + (separator_len ts + joined_len (d' :: rest))).
    unfold separator_len, len. lia.
Qed.

Lemma joined_len_snoc pieces d :
  joined_len (pieces ++ [d])
  = joined_len pieces + len d
    + match pieces with [] => 0 | _ :: _ => separator_len ts end.
Proof.
  induction pieces as [|d0 rest IH]; [simpl; lia|].
  destruct rest as [|d1 rest]; [simpl; lia|].
  change ((d0 :: d1 :: rest) ++ [d]) with (d0 :: ((d1 :: rest) ++ [d])).
  change (joined_len (d0 :: (d1 :: rest) ++ [d]))
    with (len d0 + (separator_len ts + joined_len ((d1 :: rest) ++ [d]))).
  rewrite IH. simpl. lia.
Qed.

Lemma sep_if_longer_0 pieces :
  sep_if_longer ts 0 pieces
  = match pieces with [] => 0 | _ :: _ => separator_len ts end.
Proof. by destruct pieces. Qed.

Lemma sep_if_longer_1_snoc pieces d :
  sep_if_longer ts 1 (pieces ++ [d])
  = match pieces with [] => 0 | _ :: _ => separator_len ts end.
Proof.
  unfold sep_if_longer. rewrite length_app. simpl.
  destruct pieces as [|d0 rest]; simpl; [done|].
  destruct (1 <? S (length rest + 1))%nat eqn:Hlt; [done|].
  apply Nat.ltb_ge in Hlt. lia.
Qed.

Lemma sep_if_longer_1_cons d rest :
  sep_if_longer ts 1 (d :: rest)
  = match rest with [] => 0 | _ :: _ => separator_len ts end.
Proof. by destruct rest. Qed.

Lemma joined_len_positive pieces :
  Forall (fun d => d <> EmptyString) pieces ->
  joined_len pieces <= 0 -> pieces = [].
Proof.
  destruct 1 as [|d rest Hd _]; [done|].
  simpl. intros Hle. destruct d as [|c d]; [done|].
  pose proof (joined_len_nonneg rest). pose proof separator_len_nonneg.
  unfold len in Hle. simpl in Hle. destruct rest; lia.
Qed.

(** The overlap loop ends, on a tail of the finished chunk that is short
    enough to be carried over and that leaves room for the next piece,
    unless it is empty. *)
Lemma pop_overlap_tail _len pieces :
  0 <= chunk_overlap ts ->
  exists kept,
    pop_overlap ts _len pieces (joined_len pieces) = Some (kept, joined_len kept)
    /\ kept `suffix_of` pieces
    /\ joined_len kept <= chunk_overlap ts
    /\ (joined_len kept + _len + sep_if_longer ts 0 kept <= chunk_size ts
        \/ joined_len kept <= 0).
Proof.
  intros Hoverlap. induction pieces as [|d0 rest IH].
  - exists []. simpl.
    replace (chunk_overlap ts <? 0) with false by (symmetry; apply Z.ltb_ge; lia).
    rewrite andb_false_r. simpl. repeat split; [done|lia|lia].
  - destruct IH as (kept & Hpop & Hsuf & Hshort & Hroom).
    cbn [pop_overlap].
    destruct ((chunk_overlap ts <? joined_len (d0 :: rest))
              || (chunk_size ts
                  <? joined_len (d0 :: rest) + _len
                     + sep_if_longer ts 0 (d0 :: rest))
                 && (0 <? joined_len (d0 :: rest))) eqn:Hcond.
    + exists kept. rewrite sep_if_longer_1_cons.
      replace (joined_len (d0 :: rest)
               - (len d0 + match rest with [] => 0 | _ :: _ => separator_len ts end))
        with (joined_len rest)
        by (destruct rest as [|d1 rest'];
            [simpl; lia
            |change (joined_len (d0 :: d1 :: rest'))
               with (len d0 + (separator_len ts + joined_len (d1 :: rest'))); lia]).
      repeat split; try done. by apply suffix_cons_r.
    + exists (d0 :: rest).
      apply orb_false_iff in Hcond as [Hc1 Hc2].
      apply Z.ltb_ge in Hc1. apply andb_false_iff in Hc2.
      repeat split; [done|done|].
      destruct Hc2 as [Hc2|Hc2]; apply Z.ltb_ge in Hc2; [by left|by right].
Qed.

Lemma lstrip_length s : (String.length (lstrip s) <= String.length s)%nat.
Proof.
  induction s as [|c s IH]; simpl; [done|].
  destruct (is_space c); simpl; lia.
Qed.

Lemma rstrip_length s : (String.length (rstrip s) <= String.length s)%nat.
Proof.
  induction s as [|c s IH]; simpl; [done|].
  destruct (rstrip s) as [|c' r]; [destruct (is_space c)|]; simpl in *; lia.
Qed.

Lemma strip_len s : len (strip s) <= len s.
Proof.
  unfold len, strip.
  pose proof (rstrip_length (lstrip s)). pose proof (lstrip_length s). lia.
Qed.

Lemma emit_fits ds pieces :
  Forall (fun c => len c <= chunk_size ts) ds ->
  joined_len pieces <= chunk_size ts ->
  Forall (fun c => len c <= chunk_size ts) (emit ts ds pieces).
Proof.
  intros Hds Hfit. unfold emit, _join_docs.
  destruct (truthy _); [|done].
  apply Forall_app. split; [done|]. constructor; [|done].
  pose proof (strip_len (join (separator ts) pieces)).
  rewrite len_join in *. lia.
Qed.

(** One iteration never raises and keeps [total] in step. *)
Lemma merge_step_tracks st d :
  0 <= chunk_overlap ts ->
  total_tracks st ->
  exists st', merge_step ts st d = Some st' /\ total_tracks st'.
Proof.
  intros Hoverlap Htot. unfold total_tracks in *. unfold merge_step.
  destruct (chunk_size ts <? total st + len d + sep_if_longer ts 0 (current_doc st)).
  - destruct (current_doc st) as [|d0 rest] eqn:Hcur.
    + eexists. split; [reflexivity|]. simpl. rewrite Hcur, Htot.
      rewrite joined_len_snoc, sep_if_longer_1_snoc. simpl. lia.
    + rewrite Htot.
      destruct (pop_overlap_tail (len d) (d0 :: rest) Hoverlap)
        as (kept & -> & _).
      eexists. split; [reflexivity|]. simpl.
      rewrite joined_len_snoc, sep_if_longer_1_snoc. lia.
  - eexists. split; [reflexivity|]. simpl.
    rewrite joined_len_snoc, sep_if_longer_1_snoc, Htot. lia.
Qed.

(** With pieces that fit, everything keeps fitting. *)
Lemma merge_step_fits st d st' :
  0 <= chunk_overlap ts ->
  d <> EmptyString ->
  len d <= chunk_size ts ->
  total_tracks st -> all_fit st ->
  merge_step ts st d = Some st' ->
  all_fit st'.
Proof.
  intros Hoverlap Hd Hlen Htot (Hfit & Hne & Hdocs). unfold total_tracks in Htot.
  unfold merge_step, all_fit.
  destruct (chunk_size ts <? total st + len d + sep_if_longer ts 0 (current_doc st))
    eqn:Hover.
  - destruct (current_doc st) as [|d0 rest] eqn:Hcur.
    + intros [= <-]. simpl. rewrite Hcur, sep_if_longer_1_snoc. simpl in *.
      repeat split; [lia| |done]. by repeat constructor.
    + rewrite Htot.
      destruct (pop_overlap_tail (len d) (d0 :: rest) Hoverlap)
        as (kept & -> & Hsuf & _ & Hroom).
      intros [= <-]. simpl.
      assert (Forall (fun d => d <> EmptyString) kept) as Hkept.
      { destruct Hsuf as [pre Hpre]. rewrite Hpre in Hne.
        by apply Forall_app in Hne as [_ ?]. }
      rewrite sep_if_longer_1_snoc.
      repeat split.
      * destruct Hroom as [Hroom|Hzero].
        -- rewrite sep_if_longer_0 in Hroom. lia.
        -- apply joined_len_positive in Hzero; [|done]. subst kept. simpl. lia.
      * apply Forall_app. split; [done|]. by repeat constructor.
      * apply emit_fits; [done|]. lia.
  - apply Z.ltb_ge in Hover. intros [= <-]. simpl.
    rewrite sep_if_longer_1_snoc. rewrite sep_if_longer_0 in Hover.
    repeat split; [lia| |done].
    apply Forall_app. split; [done|]. by repeat constructor.
Qed.

Lemma merge_loop_tracks splits st :
  0 <= chunk_overlap ts ->
  total_tracks st ->
  exists st', merge_loop ts st splits = Some st' /\ total_tracks st'.
Proof.
  intros Hoverlap. revert st.
  induction splits as [|d splits IH]; intros st Htot; simpl; [by eauto|].
  destruct (merge_step_tracks st d Hoverlap Htot) as (st1 & -> & Htot1).
  by apply IH.
Qed.

Lemma merge_loop_fits splits st st' :
  0 <= chunk_overlap ts ->
  Forall (fun d => d <> EmptyString) splits ->
  Forall (fun d => len d <= chunk_size ts) splits ->
  total_tracks st -> all_fit st ->
  merge_loop ts st splits = Some st' ->
  total_tracks st' /\ all_fit st'.
Proof.
  intros Hoverlap Hne Hlen. revert st.
  induction splits as [|d splits IH]; intros st Htot Hfit; simpl.
  { by intros [= <-]. }
  apply Forall_cons in Hne as [Hd Hne]. apply Forall_cons in Hlen as [Hdl Hlen].
  destruct (merge_step_tracks st d Hoverlap Htot) as (st1 & Hstep & Htot1).
  rewrite Hstep. apply IH; try done.
  exact (merge_step_fits st d st1 Hoverlap Hd Hdl Htot Hfit Hstep).
Qed.

Lemma pieces_non_empty text :
  Forall (fun d => d <> EmptyString) (_split_text_with_regex ts text).
Proof.
  unfold _split_text_with_regex. apply Forall_forall.
  intros d Hd. by apply list_elem_of_filter in Hd as [? _].
Qed.

(** The splitter returns, whatever the text. *)
Lemma splitter_total text :
  0 <= chunk_overlap ts ->
  exists chunks, splitter_split_text ts text = Some chunks.
Proof.
  intros Hoverlap. unfold splitter_split_text, _merge_splits.
  destruct (merge_loop_tracks (_split_text_with_regex ts text)
              {| docs := []; current_doc := []; total := 0 |} Hoverlap)
    as (st & -> & _); [done|]. by eauto.
Qed.

(** No chunk is longer than [chunk_size] when no piece is. *)
Lemma splitter_fits text chunks :
  0 <= chunk_overlap ts -> 0 <= chunk_size ts ->
  Forall (fun d => len d <= chunk_size ts) (_split_text_with_regex ts text) ->
  splitter_split_text ts text = Some chunks ->
  Forall (fun c => len c <= chunk_size ts) chunks.
Proof.
  intros Hoverlap Hsize Hlen. unfold splitter_split_text, _merge_splits.
  destruct (merge_loop _ _ _) as [st|] eqn:Hloop; [|done].
  intros [= <-].
  apply merge_loop_fits in Hloop as (Htot & Hfit & _ & Hdocs);
    [|done|apply pieces_non_empty|done|done|].
  - apply emit_fits; [done|]. unfold total_tracks in Htot. lia.
  - unfold all_fit. simpl. repeat split; [lia|done|done].
Qed.

End Packing.


(** Separators at the ends of the text are not part of any chunk. *)
Example trailing_newline_is_lost :
  split_text ("a" +:+ nl) = Some ["a"] /\ reassemble 200 ["a"] <> "a" +:+ nl.
Proof. split; [reflexivity|]. vm_compute. discriminate. Qed.

(** The overlap is made of whole lines: three lines of 600 characters give
    three chunks with nothing in common. *)
Example long_lines_share_nothing :
  let a := Demo.replicate_char 600 "a" in
  let b := Demo.replicate_char 600 "b" in
  let c := Demo.replicate_char 600 "c" in
  split_text (a +:+ nl +:+ b +:+ nl +:+ c) = Some [a; b; c]
  /\ ~ share_exactly 200 a b.
Proof.
  split; [vm_compute; reflexivity|].
  intros (_ & _ & Heq). vm_compute in Heq. discriminate.
Qed.


End SplitterProps.

(** ** Properties of the services *)

Module BackendProps.
Import PyStr PyStrFacts TextSplitter Backend Observations.

Section Chat.
Context `{Providers}.

(** C8. A chat call whose session id or question is the empty string
    fails with a [ValueError] (the input error) and leaves the world as it
    found it: the registry has not been read, no index loaded, no search
    run and the model not invoked, since none of these calls is logged. *)
Theorem chat_rejects_empty_input (env : Env) (w : World) :
  (forall user_question,
     get_response env "" user_question w
     = (Raise (ValueError "Invalid chat ID"), w))
  /\ (forall chat_id,
        exists msg,
          get_response env chat_id "" w = (Raise (ValueError msg), w)
          /\ (msg = "Invalid chat ID" \/ msg = "Invalid user question")).
Proof.
  split.
  - intros user_question. reflexivity.
  - intros chat_id. unfold get_response, try_except.
    destruct (truthy (strip chat_id)); simpl; eauto.
Qed.

(** C9. White space counts as empty: a session id or a question made of
    white-space characters only is rejected exactly as the empty string
    is, with the same [ValueError] and the world untouched. *)
Theorem chat_rejects_blank_input (env : Env) (w : World) (blank : string) :
  all_space blank = true ->
  (forall user_question,
     get_response env blank user_question w
     = (Raise (ValueError "Invalid chat ID"), w)
     /\ get_response env blank user_question w
        = get_response env "" user_question w)
  /\ (forall chat_id,
        get_response env chat_id blank w = get_response env chat_id "" w).
Proof.
  intros Hblank%strip_all_space. split.
  - intros user_question. unfold get_response, try_except.
    rewrite Hblank. split; reflexivity.
  - intros chat_id. unfold get_response, try_except.
    rewrite Hblank. reflexivity.
Qed.

(** *** Running the operations *)

Lemma logged_logged evs1 evs2 (w : World) :
  logged evs2 (logged evs1 w) = logged (evs1 ++ evs2) w.
Proof. unfold logged; simpl. by rewrite <- app_assoc. Qed.

Lemma storage_get_run chat_id (w : World) :
  storage_get chat_id w
  = (Ok (chat_storage w !! chat_id), logged [StorageGet chat_id] w).
Proof. reflexivity. Qed.

Lemma load_run chat_id (w : World) :
  _load_knowledge_base chat_id w
  = (Ok (embeddings_dir w !! embedding_path chat_id),
     logged [KbLoad (embedding_path chat_id)] w).
Proof.
  unfold _load_knowledge_base, bind, log, world. simpl.
  by destruct (embeddings_dir w !! embedding_path chat_id).
Qed.

Lemma resolve_hit env chat_id (w : World) knowledge_base :
  embeddings_dir w !! embedding_path chat_id = Some knowledge_base ->
  get_or_create_knowledge_base env chat_id w
  = (Ok (Some knowledge_base), logged [KbLoad (embedding_path chat_id)] w).
Proof.
  intros Hkb. unfold get_or_create_knowledge_base, try_except, bind.
  rewrite load_run, Hkb. reflexivity.
Qed.

Lemma resolve_miss env chat_id (w : World) :
  embeddings_dir w !! embedding_path chat_id = None ->
  no_source w chat_id ->
  get_or_create_knowledge_base env chat_id w
  = (Ok None, logged [KbLoad (embedding_path chat_id); StorageGet chat_id] w).
Proof.
  intros Hkb Hsrc.
  unfold get_or_create_knowledge_base, try_except, bind.
  rewrite load_run, Hkb, storage_get_run, logged_logged.
  unfold no_source in Hsrc. simpl.
  destruct (chat_storage w !! chat_id) as [chat_data|]; [|reflexivity].
  destruct Hsrc as [-> | ->]; reflexivity.
Qed.


Lemma try_except_raises {A} (m : M A) (h : exn -> M A) (w w' : World) e :
  try_except m h w = (Raise e, w') ->
  exists e0 w0, m w = (Raise e0, w0) /\ h e0 w0 = (Raise e, w').
Proof.
  unfold try_except. destruct (m w) as [[a|e0] w0]; [done|]. eauto.
Qed.

Lemma resolve_raises env chat_id (w w' : World) e :
  get_or_create_knowledge_base env chat_id w = (Raise e, w') ->
  exists msg, e = RuntimeError msg.
Proof.
  intros (e0 & w0 & _ & Hh)%try_except_raises.
  unfold raise in Hh. injection Hh as <- _. eauto.
Qed.

Lemma search_raises state knowledge_base (w w' : World) e :
  _search_chunks state knowledge_base w = (Raise e, w') ->
  exists msg, e = RuntimeError msg.
Proof.
  intros (e0 & w0 & _ & Hh)%try_except_raises.
  unfold raise in Hh. injection Hh as <- _. eauto.
Qed.

Lemma call_model_raises env state (w w' : World) e :
  _call_model env state w = (Raise e, w') ->
  exists msg, e = RuntimeError msg.
Proof.
  intros (e0 & w0 & _ & Hh)%try_except_raises.
  unfold raise in Hh. injection Hh as <- _. eauto.
Qed.

Lemma stream_raises env knowledge_base state (w w' : World) e :
  stream env knowledge_base state w = (Raise e, w') ->
  exists msg, e = RuntimeError msg.
Proof.
  unfold stream, bind.
  destruct (_search_chunks state knowledge_base w) as [[s1|e1] w1] eqn:Hs.
  - destruct (_call_model env s1 w1) as [[s2|e2] w2] eqn:Hm; [done|].
    intros [= <- <-]. by eapply call_model_raises.
  - intros [= <- <-]. by eapply search_raises.
Qed.

(** When resolution finds nothing to return, there was no index file and
    no source to rebuild from. *)
Lemma resolve_none env chat_id (w w' : World) :
  get_or_create_knowledge_base env chat_id w = (Ok None, w') ->
  embeddings_dir w !! embedding_path chat_id = None /\ no_source w chat_id.
Proof.
  unfold get_or_create_knowledge_base, try_except, bind, no_source.
  rewrite load_run.
  destruct (embeddings_dir w !! embedding_path chat_id) as [kb|]; [done|].
  rewrite storage_get_run. simpl.
  destruct (chat_storage w !! chat_id) as [chat_data|]; [|done].
  destruct (metadata chat_data !! "file_path") as [file_path|]; [|by auto].
  destruct file_path as [|c file_path]; [by auto|]. simpl.
  destruct (_extract_text_from_pdf _ _) as [[text|?] w1]; [|done].
  destruct (_create_knowledge_base _ _) as [[kb|?] w2]; [|done].
  destruct (_save_knowledge_base _ _ _ _) as [[[]|?] w3]; done.
Qed.

Lemma stream_run env knowledge_base user_question (w : World) :
  stream env knowledge_base (first_state user_question) w
  = if negb (has_similarity_search knowledge_base) then
      (Raise (RuntimeError
                "Failed to search document chunks: Invalid knowledge base format"),
       w)
    else
      let w1 := logged [SimilaritySearch user_question None] w in
      match similarity_search knowledge_base user_question None with
      | Raise e =>
          (Raise (RuntimeError ("Failed to search document chunks: " +:+ str e)), w1)
      | Ok docs =>
          if negb (forallb has_page_content docs) then
            (Raise (RuntimeError
                      "Failed to search document chunks: Invalid document format in knowledge base"),
             w1)
          else
            let prompt := combined_input (context_of docs) user_question in
            let w2 := logged [SimilaritySearch user_question None;
                              ModelInvoke prompt] w in
            match model_invoke env prompt with
            | Raise e =>
                (Raise (RuntimeError
                          ("Failed to generate model response: " +:+ str e)), w2)
            | Ok answer =>
                (Ok [first_state user_question;
                     searched_state user_question (context_of docs);
                     answered_state user_question (context_of docs) answer],
                 w2)
            end
      end.
Proof.
  unfold stream, bind, _search_chunks, _call_model, try_except, bind. simpl.
  destruct (has_similarity_search knowledge_base); simpl; [|reflexivity].
  unfold lift.
  destruct (similarity_search knowledge_base user_question None) as [docs|e];
    simpl; [|reflexivity].
  destruct (forallb has_page_content docs); simpl; [|reflexivity].
  rewrite logged_logged. simpl.
  fold (context_of docs).
  destruct (model_invoke env _) as [answer|e]; reflexivity.
Qed.

Lemma extract_run file_path (w : World) :
  _extract_text_from_pdf file_path w
  = (extracted w file_path, logged [PdfOpen file_path] w).
Proof.
  unfold _extract_text_from_pdf, extracted, try_except, bind. simpl.
  destruct (files w !! file_path) as [[msg|pages]|]; try reflexivity.
  unfold lift. destruct (page_texts pages); reflexivity.
Qed.

Lemma create_run text (w : World) :
  _create_knowledge_base text w = (built text, logged (build_log text) w).
Proof.
  unfold _create_knowledge_base, built, build_log, try_except, bind.
  destruct (split_text text) as [chunks|]; simpl.
  - unfold lift. destruct (from_texts chunks); reflexivity.
  - unfold logged. rewrite app_nil_r. by destruct w.
Qed.

Lemma save_run env chat_id knowledge_base (w : World) :
  _save_knowledge_base env chat_id knowledge_base w
  = match save_local_raises env with
    | Some msg =>
        (Raise (RuntimeError ("Failed to save knowledge base: " +:+ msg)),
         logged [KbSave (embedding_path chat_id)] w)
    | None =>
        (Ok tt,
         with_embeddings
           (<[embedding_path chat_id := knowledge_base]> (embeddings_dir w))
           (logged [KbSave (embedding_path chat_id)] w))
    end.
Proof.
  unfold _save_knowledge_base, try_except, bind. simpl.
  destruct (save_local_raises env); reflexivity.
Qed.

(** Resolution leaves the registry and the files alone and logs no search
    and no model call. *)
Lemma resolve_frame env chat_id (w w' : World) r :
  get_or_create_knowledge_base env chat_id w = (r, w') ->
  chat_storage w' = chat_storage w
  /\ files w' = files w
  /\ exists evs, trace w' = trace w ++ evs /\ resolution_only evs.
Proof.
  unfold get_or_create_knowledge_base, try_except, bind, resolution_only.
  rewrite load_run.
  destruct (embeddings_dir w !! embedding_path chat_id) as [kb|].
  { intros [= <- <-]. repeat split. eexists. split; [reflexivity|].
    repeat constructor. }
  rewrite storage_get_run, logged_logged. simpl.
  destruct (chat_storage w !! chat_id) as [chat_data|].
  2:{ intros [= <- <-]. repeat split. eexists. split; [reflexivity|].
      repeat constructor. }
  destruct (metadata chat_data !! "file_path") as [file_path|].
  2:{ intros [= <- <-]. repeat split. eexists. split; [reflexivity|].
      repeat constructor. }
  destruct (truthy file_path).
  2:{ intros [= <- <-]. repeat split. eexists. split; [reflexivity|].
      repeat constructor. }
  rewrite extract_run, logged_logged.
  destruct (extracted _ file_path) as [text|e].
  2:{ intros [= <- <-]. repeat split. eexists. split; [reflexivity|].
      repeat constructor. }
  rewrite create_run, logged_logged.
  destruct (built text) as [kb|e].
  2:{ intros [= <- <-]. repeat split. eexists. split; [reflexivity|].
      unfold build_log. destruct (split_text text); repeat constructor. }
  rewrite save_run, logged_logged.
  destruct (save_local_raises env).
  - intros [= <- <-]. repeat split. eexists. split; [reflexivity|].
    unfold build_log. destruct (split_text text); repeat constructor.
  - intros [= <- <-]. repeat split. eexists. split; [reflexivity|].
    unfold build_log. destruct (split_text text); repeat constructor.
Qed.

(** [get_response], step by step. *)
Lemma get_response_run env chat_id user_question (w : World) :
  get_response env chat_id user_question w
  = if negb (truthy (strip chat_id)) then
      (Raise (ValueError "Invalid chat ID"), w)
    else if negb (truthy (strip user_question)) then
      (Raise (ValueError "Invalid user question"), w)
    else
      let w0 := logged [StorageGet chat_id] w in
      match chat_storage w !! chat_id with
      | None =>
          (Raise (ValueError ("Chat session not found for ID: " +:+ chat_id)), w0)
      | Some chat_data =>
          match get_or_create_knowledge_base env chat_id w0 with
          | (Raise e, w1) => (Raise (processing_failure (str e)), w1)
          | (Ok None, w1) =>
              (Raise (ValueError ("Knowledge base not found for chat ID: "
                                  +:+ chat_id)), w1)
          | (Ok (Some knowledge_base), w1) =>
              answer_turn env chat_id user_question chat_data knowledge_base w1
          end
      end.
Proof.
  unfold get_response, try_except at 1.
  destruct (truthy (strip chat_id)); simpl; [|reflexivity].
  destruct (truthy (strip user_question)); simpl; [|reflexivity].
  unfold bind at 1. rewrite storage_get_run.
  destruct (chat_storage w !! chat_id) as [chat_data|]; simpl; [|reflexivity].
  unfold bind at 1.
  destruct (get_or_create_knowledge_base env chat_id _)
    as [[[knowledge_base|]|e] w1] eqn:Hres; simpl; [|reflexivity|].
  2:{ apply resolve_raises in Hres as [msg ->]. reflexivity. }
  unfold answer_turn, bind, mutate_in_place, world, set_chat_storage.
  simpl.
  change {| st_messages := [HumanMessage user_question]; st_context := "" |}
    with (first_state user_question).
  rewrite stream_run.
  destruct (has_similarity_search knowledge_base); simpl; [|reflexivity].
  destruct (similarity_search knowledge_base user_question None) as [docs|e];
    simpl; [|reflexivity].
  destruct (forallb has_page_content docs); simpl; [|reflexivity].
  destruct (model_invoke env _) as [answer|e]; simpl; [|reflexivity].
  unfold storage_update, bind, world, set_chat_storage, ret, with_storage.
  simpl. rewrite !insert_insert_eq. reflexivity.
Qed.

(** C2 (as the code has it).  A chat call with an unknown session id
    fails with a [ValueError], which the route turns into a 404.  The
    same kind is raised, and the same 404 returned, for a blank session id,
    for a blank question, and for a registered session for which neither
    an index nor a source file path is left; these four are all the 404s.
    Any other failure reaches the framework as a [RuntimeError] carrying
    the processing-failure message, never as a 404. *)
Theorem chat_error_kinds (env : Env) (chat_id question : string) (w : World) :
  (chat_storage w !! chat_id = None ->
   exists detail w',
     get_response env chat_id question w = (Raise (ValueError detail), w')
     /\ chat env chat_id question w = (HTTPException 404 detail, w'))
  /\ (forall status detail,
        fst (chat env chat_id question w) = HTTPException status detail <->
        status = 404
        /\ ((all_space chat_id = true /\ detail = "Invalid chat ID")
            \/ (all_space chat_id = false /\ all_space question = true
                /\ detail = "Invalid user question")
            \/ (all_space chat_id = false /\ all_space question = false
                /\ chat_storage w !! chat_id = None
                /\ detail = "Chat session not found for ID: " +:+ chat_id)
            \/ (all_space chat_id = false /\ all_space question = false
                /\ is_Some (chat_storage w !! chat_id)
                /\ embeddings_dir w !! embedding_path chat_id = None
                /\ no_source w chat_id
                /\ detail = "Knowledge base not found for chat ID: " +:+ chat_id)))
  /\ (forall e,
        fst (chat env chat_id question w) = Uncaught e ->
        exists msg, e = processing_failure msg).
Proof.
  unfold chat. rewrite get_response_run, !truthy_strip, !negb_involutive.
  split; [|split].
  - intros Hnone. rewrite Hnone.
    destruct (all_space chat_id); [by eauto|].
    destruct (all_space question); by eauto.
  - intros status detail.
    destruct (all_space chat_id).
    { simpl. split; [intros [= <- <-]; by auto|].
      intros [-> [[_ ->]|[(?&_)|[(?&_)|(?&_)]]]]; done. }
    destruct (all_space question).
    { simpl. split; [intros [= <- <-]; by auto 6|].
      intros [-> [(?&_)|[(_&_&->)|[(_&?&_)|(_&?&_)]]]]; done. }
    destruct (chat_storage w !! chat_id) as [chat_data|] eqn:Hreg.
    2:{ simpl. split; [intros [= <- <-]; by auto 8|].
        intros [-> [(?&_)|[(_&?&_)|[(_&_&_&->)|(_&_&[? ?]&_)]]]]; done. }
    simpl.
    destruct (get_or_create_knowledge_base env chat_id _)
      as [[[knowledge_base|]|e] w1] eqn:Hres.
    + assert (embeddings_dir w !! embedding_path chat_id = None
              -> no_source w chat_id -> False) as Hno.
      { intros Hkb Hsrc.
        rewrite (resolve_miss env chat_id (logged [StorageGet chat_id] w)) in Hres;
          done. }
      unfold answer_turn.
      split.
      * repeat (destruct (negb _) || destruct (similarity_search _ _ _)
                || destruct (model_invoke _ _)); done.
      * intros [-> [(?&_)|[(_&?&_)|[(_&_&?&_)|(_&_&_&?&?&_)]]]];
          try done. by destruct Hno.
    + apply resolve_none in Hres as [Hkb Hsrc]. simpl.
      split; [intros [= <- <-]; split; [done|]; do 3 right; by eauto 8|].
      intros [-> [(?&_)|[(_&?&_)|[(_&_&?&_)|(_&_&_&_&_&->)]]]]; done.
    + simpl. split; [done|].
      intros [-> [(?&_)|[(_&?&_)|[(_&_&?&_)|(_&_&_&Hkb&Hsrc&_)]]]]; try done.
      rewrite (resolve_miss env chat_id (logged [StorageGet chat_id] w)) in Hres;
        done.
  - intros e.
    destruct (all_space chat_id); [done|].
    destruct (all_space question); [done|].
    destruct (chat_storage w !! chat_id) as [chat_data|]; [|done].
    simpl.
    destruct (get_or_create_knowledge_base env chat_id _)
      as [[[knowledge_base|]|e0] w1] eqn:Hres; simpl.
    + unfold answer_turn.
      repeat (destruct (negb _) || destruct (similarity_search _ _ _)
              || destruct (model_invoke _ _)); simpl;
        intros [= <-]; eauto.
    + done.
    + intros [= <-]. eauto.
Qed.

(** *** Successful calls *)

(** A successful call, taken apart. *)
Lemma get_response_ok env chat_id user_question (w w' : World) resp :
  get_response env chat_id user_question w = (Ok resp, w') ->
  exists chat_data knowledge_base w1 docs,
    chat_storage w !! chat_id = Some chat_data
    /\ get_or_create_knowledge_base env chat_id (logged [StorageGet chat_id] w)
       = (Ok (Some knowledge_base), w1)
    /\ similarity_search knowledge_base user_question None = Ok docs
    /\ forallb has_page_content docs = true
    /\ model_invoke env (combined_input (context_of docs) user_question)
       = Ok (response resp)
    /\ chat_history resp
       = messages chat_data ++ [exchange env user_question (response resp)]
    /\ w' = with_storage
              (<[chat_id := recorded (refreshed chat_data knowledge_base)
                              (exchange env user_question (response resp))]>
                 (chat_storage w1))
              (logged [SimilaritySearch user_question None;
                       ModelInvoke (combined_input (context_of docs) user_question)]
                 (with_storage
                    (<[chat_id := refreshed chat_data knowledge_base]>
                       (chat_storage w1)) w1)).
Proof.
  rewrite get_response_run.
  destruct (negb (truthy (strip chat_id))); [done|].
  destruct (negb (truthy (strip user_question))); [done|].
  destruct (chat_storage w !! chat_id) as [chat_data|]; [|done]. simpl.
  destruct (get_or_create_knowledge_base env chat_id _)
    as [[[knowledge_base|]|e] w1] eqn:Hres; [|done..].
  unfold answer_turn.
  destruct (negb (has_similarity_search knowledge_base)); [done|].
  destruct (similarity_search knowledge_base user_question None)
    as [docs|e] eqn:Hdocs; [|done].
  destruct (forallb has_page_content docs) eqn:Hall; [|done]. simpl.
  destruct (model_invoke env _) as [answer|e] eqn:Hanswer; [|done].
  intros [= <- <-]. exists chat_data, knowledge_base, w1, docs. simpl.
  repeat split; done.
Qed.

Lemma well_formed_docs (docs : list Document) :
  forallb has_page_content docs = true ->
  docs = map (fun text => {| page_content := Some text |}) (omap page_content docs).
Proof.
  induction docs as [|[[text|]] docs IH]; simpl; [done| |done].
  unfold has_page_content at 1. simpl. intros Hall.
  f_equal. by apply IH.
Qed.

Lemma prompt_contains_context pdf_context user_question :
  contains (combined_input pdf_context user_question) pdf_context.
Proof.
  exists ("Context from PDF:" +:+ nl),
    (nl +:+ nl +:+ "User Question: " +:+ user_question +:+ nl +:+ nl
     +:+ "Please provide a response based on the context above.").
  unfold combined_input. by rewrite !append_assoc.
Qed.

Lemma prompt_contains_question pdf_context user_question :
  contains (combined_input pdf_context user_question) user_question.
Proof.
  exists ("Context from PDF:" +:+ nl +:+ pdf_context +:+ nl +:+ nl
          +:+ "User Question: "),
    (nl +:+ nl +:+ "Please provide a response based on the context above.").
  unfold combined_input. by rewrite !append_assoc.
Qed.

Lemma filter_resolution_only (f : Event -> bool) evs :
  (forall ev, is_search ev = false -> is_model_call ev = false -> f ev = false) ->
  resolution_only evs ->
  filter (fun ev => f ev = true) evs = [].
Proof.
  intros Hf Hevs. induction Hevs as [|ev evs [Hs Hm] _ IH]; [done|].
  rewrite filter_cons_False; [done|]. by rewrite Hf.
Qed.

(** C7. In a successful chat call the knowledge base is searched once,
    with the question as it was asked and no [k] of the caller's choosing;
    the texts of the chunks it returns, in the order returned and joined
    by single spaces, are the context; the model is invoked once, on a
    prompt that contains that context and the question verbatim, and its
    output is the answer. *)
Theorem chat_grounds_one_prompt (env : Env) (chat_id user_question : string)
    (w w' : World) (resp : ChatResponse) :
  get_response env chat_id user_question w = (Ok resp, w') ->
  exists kb texts call_events,
    let pdf_context := join " " texts in
    let prompt := combined_input pdf_context user_question in
    trace w' = trace w ++ call_events
    /\ filter (fun ev => is_search ev = true) call_events
       = [SimilaritySearch user_question None]
    /\ filter (fun ev => is_model_call ev = true) call_events
       = [ModelInvoke prompt]
    /\ (knowledge_base <$> chat_storage w' !! chat_id) = Some kb
    /\ similarity_search kb user_question None
       = Ok (map (fun text => {| page_content := Some text |}) texts)
    /\ contains prompt pdf_context
    /\ contains prompt user_question
    /\ model_invoke env prompt = Ok (response resp).
Proof.
  intros (chat_data & kb & w1 & docs & Hreg & Hres & Hdocs & Hall & Hanswer
          & _ & ->)%get_response_ok.
  apply resolve_frame in Hres as (_ & _ & evs & Htrace & Hevs).
  exists kb, (omap page_content docs),
    ([StorageGet chat_id] ++ evs
     ++ [SimilaritySearch user_question None;
         ModelInvoke (combined_input (context_of docs) user_question)]).
  simpl. rewrite Htrace. simpl.
  split; [by rewrite <- !app_assoc|].
  split.
  { rewrite filter_cons_False by done. rewrite filter_app.
    rewrite (filter_resolution_only is_search) by (done || by intros []).
    reflexivity. }
  split.
  { rewrite filter_cons_False by done. rewrite filter_app.
    rewrite (filter_resolution_only is_model_call) by (done || by intros []).
    reflexivity. }
  split; [by rewrite lookup_insert_eq|].
  split; [by rewrite <- well_formed_docs|].
  split; [apply prompt_contains_context|].
  split; [apply prompt_contains_question|done].
Qed.

(** *** Ingestion *)

(** [process_pdf], step by step. *)
Lemma process_pdf_run env file_path (w : World) :
  process_pdf env file_path w
  = match extracted w file_path with
    | Raise e => (Raise (ingestion_failure e), logged [PdfOpen file_path] w)
    | Ok text =>
        let opened := [PdfOpen file_path] ++ build_log text in
        match built text with
        | Raise e => (Raise (ingestion_failure e), logged opened w)
        | Ok kb =>
            let saving := opened ++ [KbSave (embedding_path (uuid4 env))] in
            match save_local_raises env with
            | Some msg =>
                (Raise (ingestion_failure
                          (RuntimeError ("Failed to save knowledge base: " +:+ msg))),
                 logged saving w)
            | None =>
                (Ok (uuid4 env),
                 with_storage
                   (<[uuid4 env := new_chat env file_path kb]> (chat_storage w))
                   (with_embeddings
                      (<[embedding_path (uuid4 env) := kb]> (embeddings_dir w))
                      (logged saving w)))
            end
        end
    end.
Proof.
  unfold process_pdf, try_except, bind. rewrite extract_run.
  destruct (extracted w file_path) as [text|e]; [|reflexivity].
  rewrite create_run, logged_logged.
  destruct (built text) as [kb|e]; [|reflexivity].
  rewrite save_run, logged_logged.
  destruct (save_local_raises env); reflexivity.
Qed.

(** C3. An ingestion call that fails, at whichever step, leaves the
    registry exactly as it was, and fails with the processing error.  In
    particular, with a vector store that cannot be built from no chunk, a
    PDF whose extracted text is empty is not ingested: the call fails with
    the processing error and registers nothing. *)
Theorem failed_ingestion_registers_nothing (env : Env) (file_path : string) (w : World) :
  (forall e w',
     process_pdf env file_path w = (Raise e, w') ->
     chat_storage w' = chat_storage w
     /\ exists cause, e = ingestion_failure cause)
  /\ (forall e0,
        from_texts [] = Raise e0 ->
        fst (_extract_text_from_pdf file_path w) = Ok "" ->
        exists cause w',
          process_pdf env file_path w = (Raise (ingestion_failure cause), w')
          /\ chat_storage w' = chat_storage w).
Proof.
  rewrite process_pdf_run. split.
  - intros e w'.
    destruct (extracted w file_path) as [text|e1];
      [|intros [= <- <-]; by eauto].
    destruct (built text) as [kb|e2]; [|intros [= <- <-]; by eauto].
    simpl. destruct (save_local_raises env); [|done].
    intros [= <- <-]; by eauto.
  - intros e0 Hempty Htext. rewrite extract_run in Htext. simpl in Htext.
    rewrite Htext. unfold built.
    replace (split_text "") with (Some (@nil string)) by reflexivity.
    rewrite Hempty. by eauto.
Qed.

(** *** Histories *)

Lemma history_untouched (w w' : World) chat_id :
  chat_storage w' = chat_storage w -> history w' chat_id = history w chat_id.
Proof. unfold history. by intros ->. Qed.

Lemma get_response_history (c : Call) (w w' : World) r chat_id :
  get_response (call_env c) (call_chat_id c) (call_question c) w = (r, w') ->
  history w' chat_id = history w chat_id ++ added chat_id c r.
Proof.
  destruct c as [env id q]. simpl. rewrite get_response_run.
  destruct (negb (truthy (strip id)));
    [intros [= <- <-]; simpl; by rewrite app_nil_r|].
  destruct (negb (truthy (strip q)));
    [intros [= <- <-]; simpl; by rewrite app_nil_r|].
  destruct (chat_storage w !! id) as [chat_data|] eqn:Hreg;
    [|intros [= <- <-]; simpl; by rewrite app_nil_r].
  simpl.
  destruct (get_or_create_knowledge_base env id _)
    as [[[kb|]|e] w1] eqn:Hres;
    apply resolve_frame in Hres as (Hsto & _); simpl in Hsto.
  2,3: intros [= <- <-]; simpl; rewrite app_nil_r; by apply history_untouched.
  assert (forall x, history (with_storage
                               (<[id := refreshed chat_data kb]> (chat_storage w1)) x)
                      chat_id = history w chat_id) as Hsame.
  { intros x. unfold history. simpl. rewrite Hsto.
    destruct (decide (id = chat_id)) as [<-|Hne].
    - by rewrite lookup_insert_eq, Hreg.
    - by rewrite lookup_insert_ne. }
  unfold answer_turn.
  destruct (negb (has_similarity_search kb));
    [intros [= <- <-]; simpl; by rewrite app_nil_r, Hsame|].
  destruct (similarity_search kb q None) as [docs|e];
    [|intros [= <- <-]; simpl; rewrite app_nil_r; apply (Hsame (logged _ w1))].
  destruct (negb (forallb has_page_content docs));
    [intros [= <- <-]; simpl; rewrite app_nil_r; apply (Hsame (logged _ w1))|].
  simpl. destruct (model_invoke env _) as [answer|e];
    [|intros [= <- <-]; simpl; rewrite app_nil_r; apply (Hsame (logged _ w1))].
  intros [= <- <-]. unfold history, added. simpl. rewrite Hsto.
  destruct (decide (id = chat_id)) as [<-|Hne].
  - by rewrite lookup_insert_eq, Hreg.
  - rewrite lookup_insert_ne by done. by rewrite app_nil_r.
Qed.

Lemma run_chats_history calls (w : World) chat_id :
  history (snd (run_chats calls w)) chat_id
  = history w chat_id ++ exchanges_of chat_id calls (fst (run_chats calls w)).
Proof.
  revert w. induction calls as [|c calls IH]; intros w; simpl.
  { by rewrite app_nil_r. }
  destruct (get_response _ _ _ w) as [r w1] eqn:Hcall.
  specialize (IH w1). destruct (run_chats calls w1) as [rs w2]. simpl in *.
  rewrite IH, (get_response_history _ _ _ _ _ Hcall). by rewrite app_assoc.
Qed.

Lemma exchanges_count chat_id calls results :
  length (exchanges_of chat_id calls results) = successes chat_id calls results.
Proof.
  revert results. induction calls as [|c calls IH]; intros [|r results];
    simpl; try done.
  rewrite length_app, IH. f_equal. unfold added.
  destruct r; [|done]. by destruct (decide _).
Qed.

(** C4. Histories only grow, and only at their end.  Every chat call,
    successful or not, on whichever session, leaves the history of a
    session as it was, followed by the exchange
    [{question, answer, timestamp}] of the call when the call succeeded on
    that session.  A successful call returns the answer together with the
    history it has just extended.  Hence, from its ingestion on, a
    session that has seen [N] successful calls has a history of exactly
    [N] entries, in call order. *)
Theorem history_append_only (chat_id : string) :
  (forall c w r w',
     get_response (call_env c) (call_chat_id c) (call_question c) w = (r, w') ->
     history w' chat_id = history w chat_id ++ added chat_id c r)
  /\ (forall env user_question w resp w',
        get_response env chat_id user_question w = (Ok resp, w') ->
        chat_history resp = history w' chat_id
        /\ chat_history resp
           = history w chat_id ++ [exchange env user_question (response resp)])
  /\ (forall calls w,
        history (snd (run_chats calls w)) chat_id
        = history w chat_id ++ exchanges_of chat_id calls (fst (run_chats calls w)))
  /\ (forall env file_path w0 w calls,
        process_pdf env file_path w0 = (Ok chat_id, w) ->
        history (snd (run_chats calls w)) chat_id
        = exchanges_of chat_id calls (fst (run_chats calls w))
        /\ length (history (snd (run_chats calls w)) chat_id)
           = successes chat_id calls (fst (run_chats calls w))).
Proof.
  split; [|split; [|split]].
  - intros c w r w'. apply get_response_history.
  - intros env user_question w resp w' Hcall.
    pose proof (get_response_history
                  {| call_env := env; call_chat_id := chat_id;
                     call_question := user_question |} _ _ _ chat_id Hcall) as Hh.
    apply get_response_ok in Hcall
      as (chat_data & kb & w1 & docs & Hreg & _ & _ & _ & _ & Hhist & _).
    unfold added in Hh. simpl in Hh. rewrite decide_True in Hh by done.
    rewrite Hh, Hhist. unfold history. by rewrite Hreg.
  - intros calls w. apply run_chats_history.
  - intros env file_path w0 w calls Hingest.
    assert (history w chat_id = []) as Hfresh.
    { rewrite process_pdf_run in Hingest.
      destruct (extracted w0 file_path) as [text|]; [|done].
      destruct (built text) as [kb|]; [|done].
      simpl in Hingest. destruct (save_local_raises env); [done|].
      injection Hingest as <- <-. unfold history. simpl.
      by rewrite lookup_insert_eq. }
    rewrite run_chats_history, Hfresh. simpl.
    split; [done|]. apply exchanges_count.
Qed.

(** *** Text extraction *)

Lemma page_texts_all_ok pages :
  forallb page_ok pages = true ->
  page_texts pages = Ok (lenient_page_texts pages).
Proof.
  induction pages as [|page pages IH]; simpl; [done|].
  intros [Hpage Hrest]%andb_true_iff. unfold page_ok in Hpage.
  unfold lenient_page_texts, lenient_page_text in *. simpl.
  destruct (extract_text page) as [t|]; [|done].
  destruct (truthy t); by rewrite IH.
Qed.

Lemma page_texts_first_failure good bad rest e :
  forallb page_ok good = true ->
  extract_text bad = Raise e ->
  page_texts (good ++ bad :: rest) = Raise e.
Proof.
  intros Hgood Hbad.
  induction good as [|page pages IH]; simpl in *.
  - by rewrite Hbad.
  - apply andb_true_iff in Hgood as [Hpage Hrest]. unfold page_ok in Hpage.
    destruct (extract_text page) as [t|]; [|done].
    rewrite IH by done. by destruct (truthy t).
Qed.

(** C5 (as the code has it).  Extraction goes through the pages in
    order.  As long as no page raises, the result is the concatenation of
    the texts of the pages that have some: a page with no text is skipped
    and the pages after it are still read.  A page whose extraction raises
    is not skipped: it aborts the extraction, which fails with the
    processing error carrying the cause, whatever the pages after it
    hold. *)
Theorem extraction_skips_only_empty_pages (file_path : string) (w : World) :
  (forall pages,
     files w !! file_path = Some (Readable pages) ->
     forallb page_ok pages = true ->
     _extract_text_from_pdf file_path w
     = (Ok (join "" (lenient_page_texts pages)), logged [PdfOpen file_path] w))
  /\ (forall good bad rest e,
        files w !! file_path = Some (Readable (good ++ bad :: rest)) ->
        forallb page_ok good = true ->
        extract_text bad = Raise e ->
        _extract_text_from_pdf file_path w
        = (Raise (RuntimeError ("Failed to extract text from PDF: " +:+ str e)),
           logged [PdfOpen file_path] w)).
Proof.
  split.
  - intros pages Hfile Hok. rewrite extract_run. unfold extracted.
    by rewrite Hfile, page_texts_all_ok.
  - intros good bad rest e Hfile Hgood Hbad. rewrite extract_run.
    unfold extracted.
    by rewrite Hfile, (page_texts_first_failure _ _ _ e).
Qed.

(** *** Rebuilding a lost index *)

(** Once the knowledge base is resolved, the rest of a chat call depends
    on the world through the registry only. *)
Lemma answer_turn_registry env chat_id user_question chat_data kb (w1 w2 : World) :
  chat_storage w1 = chat_storage w2 ->
  embeddings_dir w1 = embeddings_dir w2 ->
  fst (answer_turn env chat_id user_question chat_data kb w1)
  = fst (answer_turn env chat_id user_question chat_data kb w2)
  /\ chat_storage (snd (answer_turn env chat_id user_question chat_data kb w1))
     = chat_storage (snd (answer_turn env chat_id user_question chat_data kb w2))
  /\ embeddings_dir (snd (answer_turn env chat_id user_question chat_data kb w1))
     = embeddings_dir w1
  /\ embeddings_dir (snd (answer_turn env chat_id user_question chat_data kb w2))
     = embeddings_dir w2.
Proof.
  intros Hsto Hemb. unfold answer_turn. rewrite Hsto.
  repeat (destruct (negb _) || destruct (similarity_search _ _ _)
          || destruct (model_invoke _ _)); simpl; done.
Qed.

Lemma resolve_rebuild env chat_id (w : World) chat_data file_path text chunks kb :
  embeddings_dir w !! embedding_path chat_id = None ->
  chat_storage w !! chat_id = Some chat_data ->
  metadata chat_data !! "file_path" = Some file_path ->
  truthy file_path = true ->
  extracted w file_path = Ok text ->
  split_text text = Some chunks ->
  from_texts chunks = Ok kb ->
  save_local_raises env = None ->
  get_or_create_knowledge_base env chat_id w
  = (Ok (Some kb),
     with_embeddings (<[embedding_path chat_id := kb]> (embeddings_dir w))
       (logged [KbLoad (embedding_path chat_id); StorageGet chat_id;
                PdfOpen file_path; KbBuild chunks;
                KbSave (embedding_path chat_id)] w)).
Proof.
  intros Hlost Hreg Hpath Hp Htext Hchunks Hkb Hsave.
  unfold get_or_create_knowledge_base, try_except, bind.
  rewrite load_run, Hlost, storage_get_run, logged_logged. simpl.
  rewrite Hreg, Hpath, Hp, extract_run, logged_logged.
  replace (extracted _ file_path) with (@Ok string text) by done.
  rewrite create_run, logged_logged. unfold built, build_log.
  rewrite Hchunks, Hkb, save_run, Hsave, logged_logged. reflexivity.
Qed.

(** What a successful ingestion leaves behind is what a rebuild needs: the
    session with its source path, a file that yields text, chunks and an
    index, and that index persisted under the session id. *)
Lemma ingestion_sets_up_rebuild env file_path (w0 w : World) chat_id :
  process_pdf env file_path w0 = (Ok chat_id, w) ->
  exists text chunks kb,
    chat_storage w !! chat_id = Some (new_chat env file_path kb)
    /\ metadata (new_chat env file_path kb) !! "file_path" = Some file_path
    /\ fst (_extract_text_from_pdf file_path w) = Ok text
    /\ split_text text = Some chunks
    /\ from_texts chunks = Ok kb
    /\ embeddings_dir w !! embedding_path chat_id = Some kb.
Proof.
  rewrite process_pdf_run, extract_run.
  destruct (extracted w0 file_path) as [text|] eqn:Htext; [|done].
  unfold built. destruct (split_text text) as [chunks|] eqn:Hchunks; [|done].
  destruct (from_texts chunks) as [kb|] eqn:Hkb; [|done]. simpl.
  destruct (save_local_raises env); [done|].
  intros [= <- <-]. exists text, chunks, kb. simpl.
  rewrite !lookup_insert_eq. repeat split; done.
Qed.

(** C1 (as the code has it).  Take a chat call with a non-blank id and
    question on a registered session whose index file is absent.  If the
    file at the session's stored path still yields a text, the text
    chunks, an index is built from the chunks and saving does not fail,
    then the call rebuilds the index from that path (open, chunk and
    build, then save), leaves it persisted under the same session id, and
    ends with the same result and the same registry as the same call made
    with that index still on storage. *)
Theorem lost_index_is_rebuilt (env : Env) (chat_id user_question : string)
    (w : World) (chat_data : PDFChat) (file_path text : string)
    (chunks : list string) (kb : FAISS) :
  all_space chat_id = false ->
  all_space user_question = false ->
  chat_storage w !! chat_id = Some chat_data ->
  embeddings_dir w !! embedding_path chat_id = None ->
  metadata chat_data !! "file_path" = Some file_path ->
  truthy file_path = true ->
  fst (_extract_text_from_pdf file_path w) = Ok text ->
  split_text text = Some chunks ->
  from_texts chunks = Ok kb ->
  save_local_raises env = None ->
  let persisted := <[embedding_path chat_id := kb]> (embeddings_dir w) in
  let after := get_response env chat_id user_question w in
  let before :=
    get_response env chat_id user_question (with_embeddings persisted w) in
  (exists evs1 evs2,
     trace (snd after)
     = trace w ++ evs1
         ++ [PdfOpen file_path; KbBuild chunks; KbSave (embedding_path chat_id)]
         ++ evs2)
  /\ embeddings_dir (snd after) = persisted
  /\ fst after = fst before
  /\ chat_storage (snd after) = chat_storage (snd before)
  /\ embeddings_dir (snd after) = embeddings_dir (snd before).
Proof.
  intros Hid Hq Hreg Hlost Hpath Hp Htext Hchunks Hkb Hsave. simpl.
  rewrite extract_run in Htext. simpl in Htext.
  rewrite !get_response_run, !truthy_strip, Hid, Hq. simpl. rewrite Hreg.
  rewrite (resolve_rebuild env chat_id (logged [StorageGet chat_id] w)
             chat_data file_path text chunks kb) by done.
  rewrite (resolve_hit env chat_id _ kb) by (simpl; apply lookup_insert_eq).
  simpl.
  match goal with
  | |- context [fst (answer_turn _ _ _ _ _ ?a) = fst (answer_turn _ _ _ _ _ ?b)] =>
      destruct (answer_turn_registry env chat_id user_question chat_data kb a b)
        as (Hr & Hs & He1 & He2); [done| |]
  end.
  { done. }
  split.
  { unfold answer_turn.
    repeat (destruct (negb _) || destruct (similarity_search _ _ _)
            || destruct (model_invoke _ _)); simpl;
      eexists [_; _; _], _; rewrite <- !app_assoc; simpl; reflexivity. }
  rewrite He1, Hr, Hs, He2. done.
Qed.

End Chat.

End BackendProps.

(** ** The theorems on the demo instance *)

Module Scenarios.
Import PyStr TextSplitter Backend ChunkSpec Observations Demo SplitterProps BackendProps.

#[local] Existing Instance demo_providers.

(** The question is blank, the session is registered, and the route still
    answers 404. *)
Lemma blank_question_reported_as_not_found :
  ~ not_found_means_unknown_session.
Proof.
  intros Hspec.
  specialize (Hspec demo_env "3f2b" "" sky_world "Invalid user question" eq_refl).
  vm_compute in Hspec. discriminate.
Qed.

(** The session is registered, its index file is absent, the call is well
    formed, and it fails: the uploaded file is no longer there to rebuild
    from. *)
Lemma rebuild_fails_without_source : ~ rebuild_always_succeeds.
Proof.
  intros Hspec.
  destruct (Hspec demo_env "3f2b" sky_question sky_world_source_gone)
    as (resp & w' & Hcall); try (vm_compute; reflexivity).
  { vm_compute. eauto. }
  vm_compute in Hcall. discriminate.
Qed.

(** The second page of [uploads/torn.pdf] raises and the extraction fails;
    the lenient reading would return the other two pages. *)
Lemma failing_page_aborts_extraction : ~ extraction_skips_failing_pages.
Proof.
  intros Hspec.
  specialize (Hspec fresh_world "uploads/torn.pdf" _ eq_refl).
  vm_compute in Hspec. discriminate.
Qed.

Lemma sky_index_rebuilt :
  exists evs1 evs2,
    trace (snd (get_response demo_env "3f2b" sky_question sky_world_index_lost))
    = trace sky_world_index_lost ++ evs1
        ++ [PdfOpen "uploads/sky.pdf"; KbBuild [sky_text]; KbSave "3f2b.faiss"]
        ++ evs2.
Proof.
  refine (proj1 (lost_index_is_rebuilt demo_env "3f2b" sky_question
                   sky_world_index_lost sky_chat "uploads/sky.pdf" sky_text
                   [sky_text] [sky_text] _ _ _ _ _ _ _ _ _ _));
    vm_compute; reflexivity.
Defined.

Lemma nobody_gets_404 :
  (exists detail w',
     get_response demo_env "nobody" "Hi" sky_world = (Raise (ValueError detail), w')
     /\ chat demo_env "nobody" "Hi" sky_world = (HTTPException 404 detail, w'))
  /\ exists msg,
       RuntimeError
         "Failed to process chat message: Failed to generate model response: connection refused"
       = processing_failure msg.
Proof.
  split.
  - apply (proj1 (chat_error_kinds demo_env "nobody" "Hi" sky_world)).
    vm_compute. reflexivity.
  - apply (proj2 (proj2 (chat_error_kinds offline_env "3f2b" sky_question sky_world))).
    vm_compute. reflexivity.
Defined.

Lemma full_disk_and_blank_pdf_register_nothing :
  (chat_storage (snd (process_pdf full_disk_env "uploads/sky.pdf" fresh_world))
   = chat_storage fresh_world
   /\ exists cause,
        RuntimeError
          "Failed to process PDF: Failed to save knowledge base: [Errno 28] No space left on device"
        = ingestion_failure cause)
  /\ exists cause w',
       process_pdf demo_env "uploads/blank.pdf" fresh_world
       = (Raise (ingestion_failure cause), w')
       /\ chat_storage w' = chat_storage fresh_world.
Proof.
  split.
  - apply (proj1 (failed_ingestion_registers_nothing
                    full_disk_env "uploads/sky.pdf" fresh_world)).
    vm_compute. reflexivity.
  - apply (proj2 (failed_ingestion_registers_nothing
                    demo_env "uploads/blank.pdf" fresh_world)
             (Exception "list index out of range")).
    + reflexivity.
    + vm_compute. reflexivity.
Defined.

Lemma sky_history_counts_successes :
  let asked := get_response demo_env "3f2b" sky_question sky_world in
  let first_call :=
    {| call_env := demo_env; call_chat_id := "3f2b";
       call_question := sky_question |} in
  (history (snd (run_chats sky_calls sky_world)) "3f2b"
   = exchanges_of "3f2b" sky_calls (fst (run_chats sky_calls sky_world))
   /\ length (history (snd (run_chats sky_calls sky_world)) "3f2b")
      = successes "3f2b" sky_calls (fst (run_chats sky_calls sky_world)))
  /\ history (snd asked) "3f2b"
     = history sky_world "3f2b" ++ added "3f2b" first_call (Ok sky_response)
  /\ chat_history sky_response = history (snd asked) "3f2b"
  /\ chat_history sky_response
     = history sky_world "3f2b"
       ++ [exchange demo_env sky_question (response sky_response)].
Proof.
  cbv zeta. split; [|split].
  - apply (proj2 (proj2 (proj2 (history_append_only "3f2b")))
             demo_env "uploads/sky.pdf" fresh_world sky_world sky_calls).
    vm_compute. reflexivity.
  - apply (proj1 (history_append_only "3f2b")
             {| call_env := demo_env; call_chat_id := "3f2b";
                call_question := sky_question |}).
    vm_compute. reflexivity.
  - apply (proj1 (proj2 (history_append_only "3f2b")) demo_env sky_question).
    vm_compute. reflexivity.
Defined.

Example two_of_three_calls_recorded :
  length (history (snd (run_chats sky_calls sky_world)) "3f2b") = 2%nat.
Proof. vm_compute. reflexivity. Qed.

Lemma sky_and_torn_extraction :
  _extract_text_from_pdf "uploads/sky.pdf" fresh_world
  = (Ok sky_text, logged [PdfOpen "uploads/sky.pdf"] fresh_world)
  /\ _extract_text_from_pdf "uploads/torn.pdf" fresh_world
     = (Raise (RuntimeError "Failed to extract text from PDF: bad xref table"),
        logged [PdfOpen "uploads/torn.pdf"] fresh_world).
Proof.
  split.
  - apply (proj1 (extraction_skips_only_empty_pages "uploads/sky.pdf" fresh_world)
             [ {| extract_text := Ok "The sky is blue." |};
               {| extract_text := Ok "" |};
               {| extract_text := Ok " Grass is green." |} ]).
    + vm_compute. reflexivity.
    + reflexivity.
  - apply (proj2 (extraction_skips_only_empty_pages "uploads/torn.pdf" fresh_world)
             [ {| extract_text := Ok "first" |} ]
             {| extract_text := Raise (Exception "bad xref table") |}
             [ {| extract_text := Ok "third" |} ]
             (Exception "bad xref table")).
    + vm_compute. reflexivity.
    + reflexivity.
    + reflexivity.
Defined.


Lemma sky_prompt_is_grounded :
  exists kb texts call_events,
    let pdf_context := join " " texts in
    let prompt := combined_input pdf_context sky_question in
    trace (snd (get_response demo_env "3f2b" sky_question sky_world))
    = trace sky_world ++ call_events
    /\ filter (fun ev => is_search ev = true) call_events
       = [SimilaritySearch sky_question None]
    /\ filter (fun ev => is_model_call ev = true) call_events
       = [ModelInvoke prompt]
    /\ (knowledge_base
          <$> chat_storage (snd (get_response demo_env "3f2b" sky_question sky_world))
              !! "3f2b") = Some kb
    /\ similarity_search kb sky_question None
       = Ok (map (fun text => {| page_content := Some text |}) texts)
    /\ contains prompt pdf_context
    /\ contains prompt sky_question
    /\ model_invoke demo_env prompt = Ok (response sky_response).
Proof.
  apply (chat_grounds_one_prompt demo_env "3f2b" sky_question sky_world).
  vm_compute. reflexivity.
Defined.

Lemma spaces_rejected_like_empty :
  (forall user_question,
     get_response demo_env "   " user_question sky_world
     = (Raise (ValueError "Invalid chat ID"), sky_world)
     /\ get_response demo_env "   " user_question sky_world
        = get_response demo_env "" user_question sky_world)
  /\ (forall chat_id,
        get_response demo_env chat_id "   " sky_world
        = get_response demo_env chat_id "" sky_world).
Proof.
  apply (chat_rejects_blank_input demo_env sky_world "   ").
  reflexivity.
Defined.


End Scenarios.

(** ** Further properties of the services *)

Module Coverage.
Import PyStr PyStrFacts TextSplitter Backend Observations Routes BackendProps.

Lemma append_inj_l (s1 s2 t : string) : s1 +:+ t = s2 +:+ t -> s1 = s2.
Proof.
  revert s2. induction s1 as [|c s1 IH]; intros [|c' s2] Heq; [done| | |].
  - apply (f_equal String.length) in Heq.
    rewrite append_cons, !length_append in Heq. simpl in Heq.
    rewrite length_append in Heq. lia.
  - apply (f_equal String.length) in Heq.
    rewrite append_cons, !length_append in Heq. simpl in Heq.
    rewrite length_append in Heq. lia.
  - rewrite !append_cons in Heq. injection Heq as -> Heq. f_equal. by apply IH.
Qed.

Section Frames.
Context `{Providers}.

Lemma embedding_path_inj a b : embedding_path a = embedding_path b -> a = b.
Proof. apply append_inj_l. Qed.

(** Resolution writes at most the index file of the id it resolves, and
    what it returns is what is then persisted under that id. *)
Lemma resolve_storage env chat_id (w w1 : World) r :
  get_or_create_knowledge_base env chat_id w = (r, w1) ->
  (embeddings_dir w1 = embeddings_dir w
   \/ (embeddings_dir w !! embedding_path chat_id = None
       /\ exists kb, embeddings_dir w1
                     = <[embedding_path chat_id := kb]> (embeddings_dir w)))
  /\ (forall kb, r = Ok (Some kb) ->
                 embeddings_dir w1 !! embedding_path chat_id = Some kb).
Proof.
  unfold get_or_create_knowledge_base, try_except, bind.
  rewrite load_run.
  destruct (embeddings_dir w !! embedding_path chat_id) as [kb0|] eqn:Hidx.
  { intros [= <- <-]. simpl. split; [by left|]. by intros kb [= <-]. }
  rewrite storage_get_run, logged_logged. simpl.
  destruct (chat_storage w !! chat_id) as [chat_data|].
  2:{ intros [= <- <-]. simpl. split; [by left|done]. }
  destruct (metadata chat_data !! "file_path") as [file_path|].
  2:{ intros [= <- <-]. simpl. split; [by left|done]. }
  destruct (truthy file_path).
  2:{ intros [= <- <-]. simpl. split; [by left|done]. }
  rewrite extract_run, logged_logged.
  destruct (extracted _ file_path) as [text|e].
  2:{ intros [= <- <-]. simpl. split; [by left|done]. }
  rewrite create_run, logged_logged.
  destruct (built text) as [kb|e].
  2:{ intros [= <- <-]. simpl. split; [by left|done]. }
  rewrite save_run, logged_logged.
  destruct (save_local_raises env).
  - intros [= <- <-]. simpl. split; [by left|done].
  - intros [= <- <-]. simpl. split; [right; by eauto|].
    intros kb' [= <-]. apply lookup_insert_eq.
Qed.

(** The part of a call after resolution writes the session back, with its
    metadata and creation time as they were, and nothing else. *)
Lemma answer_turn_frame env chat_id user_question chat_data kb (w1 : World) :
  let out := answer_turn env chat_id user_question chat_data kb w1 in
  files (snd out) = files w1
  /\ embeddings_dir (snd out) = embeddings_dir w1
  /\ exists chat_data',
       chat_storage (snd out) = <[chat_id := chat_data']> (chat_storage w1)
       /\ metadata chat_data' = metadata chat_data
       /\ created_at chat_data' = created_at chat_data
       /\ knowledge_base chat_data' = kb.
Proof.
  unfold answer_turn.
  repeat (destruct (negb _) || destruct (similarity_search _ _ _)
          || destruct (model_invoke _ _)); simpl;
    (split; [done|]; split; [done|]; eexists; split; [reflexivity|done]).
Qed.

(** What a chat call may change: its own session, written back with the
    same metadata, and its own index file when there was none. *)
Lemma chat_frame env chat_id user_question (w w' : World) r :
  get_response env chat_id user_question w = (r, w') ->
  files w' = files w
  /\ (chat_storage w' = chat_storage w
      \/ exists chat_data chat_data',
           chat_storage w !! chat_id = Some chat_data
           /\ chat_storage w' = <[chat_id := chat_data']> (chat_storage w)
           /\ metadata chat_data' = metadata chat_data
           /\ created_at chat_data' = created_at chat_data)
  /\ (embeddings_dir w' = embeddings_dir w
      \/ (embeddings_dir w !! embedding_path chat_id = None
          /\ exists kb, embeddings_dir w'
                        = <[embedding_path chat_id := kb]> (embeddings_dir w))).
Proof.
  rewrite get_response_run.
  destruct (negb (truthy (strip chat_id))); [intros [= <- <-]; by auto|].
  destruct (negb (truthy (strip user_question))); [intros [= <- <-]; by auto|].
  destruct (chat_storage w !! chat_id) as [chat_data|] eqn:Hreg;
    [|intros [= <- <-]; by auto].
  simpl.
  destruct (get_or_create_knowledge_base env chat_id _)
    as [r1 w1] eqn:Hres.
  pose proof (resolve_frame _ _ _ _ _ Hres) as (Hsto & Hfiles & _).
  pose proof (resolve_storage _ _ _ _ _ Hres) as [Hemb _].
  simpl in Hsto, Hfiles, Hemb.
  destruct r1 as [[kb|]|e].
  2,3: intros [= <- <-]; rewrite Hsto, Hfiles; by auto.
  pose proof (answer_turn_frame env chat_id user_question chat_data kb w1)
    as (Hf & He & chat_data' & Hs & Hm & Hc & _).
  intros Hturn. rewrite Hturn in Hf, He, Hs. simpl in Hf, He, Hs.
  rewrite Hf, He, Hs, Hsto, Hfiles. split; [done|]. split; [|done].
  right. by eauto 6.
Qed.

(** X1.  A successful ingestion returns the identifier drawn for it and
    does three things, in this order: it reads the file, builds an index
    from the chunks of its text, and saves that index under the identifier.
    It registers one session under the identifier, with that index, an
    empty history and the path, file name and time in its metadata.  Every
    other session, every other index file and all files are left as they
    were. *)
Theorem ingestion_registers_one_session (env : Env) (file_path : string)
    (w w' : World) (chat_id : string) :
  process_pdf env file_path w = (Ok chat_id, w') ->
  chat_id = uuid4 env
  /\ exists text chunks kb,
       fst (_extract_text_from_pdf file_path w) = Ok text
       /\ split_text text = Some chunks
       /\ from_texts chunks = Ok kb
       /\ trace w' = trace w ++ [PdfOpen file_path; KbBuild chunks;
                                 KbSave (embedding_path chat_id)]
       /\ chat_storage w' !! chat_id
          = Some {| knowledge_base := kb;
                    messages := [];
                    metadata :=
                      <["file_path" := file_path]>
                        (<["created_at" := utcnow env 0]>
                           (<["file_name" := path_name file_path]> ∅));
                    created_at := utcnow env 1 |}
       /\ embeddings_dir w' !! embedding_path chat_id = Some kb
       /\ files w' = files w
       /\ forall other,
            other <> chat_id ->
            chat_storage w' !! other = chat_storage w !! other
            /\ embeddings_dir w' !! embedding_path other
               = embeddings_dir w !! embedding_path other.
Proof.
  rewrite process_pdf_run, extract_run.
  destruct (extracted w file_path) as [text|] eqn:Htext; [|done].
  unfold built, build_log.
  destruct (split_text text) as [chunks|] eqn:Hchunks; [|done].
  destruct (from_texts chunks) as [kb|] eqn:Hkb; [|done]. simpl.
  destruct (save_local_raises env); [done|].
  intros [= <- <-]. split; [done|]. exists text, chunks, kb. simpl.
  rewrite !lookup_insert_eq. repeat split; try done.
  - by rewrite lookup_insert_ne.
  - rewrite lookup_insert_ne; [done|]. by intros ?%embedding_path_inj.
Qed.

(** X2.  Ingestion stops at the first step that fails and reports its
    cause.  When the file cannot be read, nothing is built and nothing
    saved: only the attempt to open the file is logged.  When the index
    cannot be built from the text, nothing is saved: the embeddings
    directory is unchanged.  In both cases the error is the processing error
    whose message ends with the message of the step that failed. *)
Theorem ingestion_stops_at_first_failure (env : Env) (file_path : string)
    (w : World) :
  (forall e,
     fst (_extract_text_from_pdf file_path w) = Raise e ->
     process_pdf env file_path w
     = (Raise (RuntimeError ("Failed to process PDF: " +:+ str e)),
        logged [PdfOpen file_path] w))
  /\ (forall text e,
        fst (_extract_text_from_pdf file_path w) = Ok text ->
        fst (_create_knowledge_base text w) = Raise e ->
        exists evs,
          process_pdf env file_path w
          = (Raise (RuntimeError ("Failed to process PDF: " +:+ str e)),
             logged (PdfOpen file_path :: evs) w)
          /\ Forall (fun ev => exists chunks, ev = KbBuild chunks) evs).
Proof.
  rewrite process_pdf_run, extract_run. simpl. split.
  - by intros e ->.
  - intros text e -> Hbuild. rewrite create_run in Hbuild. simpl in Hbuild.
    rewrite Hbuild. exists (build_log text). split; [done|].
    unfold build_log. destruct (split_text text); repeat constructor. by eauto.
Qed.

(** X3.  A chat call, whatever its outcome, leaves the files alone,
    registers no session and drops none, does not touch any session other
    than the one it is made on, and leaves that one's metadata and creation
    time as they were. *)
Theorem chat_touches_one_session (env : Env) (chat_id user_question : string)
    (w w' : World) (r : result ChatResponse) :
  get_response env chat_id user_question w = (r, w') ->
  files w' = files w
  /\ dom (chat_storage w') = dom (chat_storage w)
  /\ (forall other,
        other <> chat_id -> chat_storage w' !! other = chat_storage w !! other)
  /\ (forall chat_data,
        chat_storage w !! chat_id = Some chat_data ->
        exists chat_data',
          chat_storage w' !! chat_id = Some chat_data'
          /\ metadata chat_data' = metadata chat_data
          /\ created_at chat_data' = created_at chat_data).
Proof.
  intros (Hfiles & [Hsto|(c & c' & Hreg & Hsto & Hm & Hc)] & _)%chat_frame;
    rewrite Hsto; (split; [done|]).
  - split; [done|]. split; [done|]. by eauto.
  - split; [by apply dom_insert_lookup_L|].
    split; [intros other Hne; by rewrite lookup_insert_ne|].
    intros chat_data Hc0. rewrite Hreg in Hc0. injection Hc0 as <-.
    exists c'. by rewrite lookup_insert_eq.
Qed.

(** X4.  A chat call never writes an index file other than that of its
    own session, and does not write that one either when it is there
    already: with the index persisted, the embeddings directory is left
    unchanged. *)
Theorem chat_writes_at_most_its_index (env : Env) (chat_id user_question : string)
    (w w' : World) (r : result ChatResponse) :
  get_response env chat_id user_question w = (r, w') ->
  (forall other,
     other <> chat_id ->
     embeddings_dir w' !! embedding_path other
     = embeddings_dir w !! embedding_path other)
  /\ (is_Some (embeddings_dir w !! embedding_path chat_id) ->
      embeddings_dir w' = embeddings_dir w).
Proof.
  intros (_ & _ & [Hemb|(Hnone & kb & Hemb)])%chat_frame; rewrite Hemb.
  - done.
  - split.
    + intros other Hne. rewrite lookup_insert_ne; [done|].
      intros Heq%embedding_path_inj. by apply Hne.
    + rewrite Hnone. by intros [? ?].
Qed.

(** X5.  No sequence of chat calls registers a session, drops one or
    changes the metadata of one: the registry keeps its keys and every
    session keeps the source path it was ingested from. *)
Theorem chats_keep_sessions (calls : list Call) (w : World) :
  dom (chat_storage (snd (run_chats calls w))) = dom (chat_storage w)
  /\ files (snd (run_chats calls w)) = files w
  /\ forall chat_id chat_data,
       chat_storage w !! chat_id = Some chat_data ->
       exists chat_data',
         chat_storage (snd (run_chats calls w)) !! chat_id = Some chat_data'
         /\ metadata chat_data' = metadata chat_data.
Proof.
  revert w. induction calls as [|c calls IH]; intros w; simpl.
  { split; [done|]. split; [done|]. by eauto. }
  destruct (get_response _ _ _ w) as [r w1] eqn:Hcall.
  specialize (IH w1). destruct (run_chats calls w1) as [rs w2]. simpl in *.
  destruct IH as (Hdom & Hfiles & Hmeta).
  apply chat_frame in Hcall as (Hf1 & Hsto & _).
  rewrite Hdom, Hfiles, Hf1.
  destruct Hsto as [Hsto|(c0 & c' & Hreg & Hsto & Hm & _)]; rewrite Hsto in *.
  - split; [done|]. split; [done|]. done.
  - split; [by apply dom_insert_lookup_L|]. split; [done|].
    intros chat_id chat_data Hc0.
    destruct (decide (call_chat_id c = chat_id)) as [<-|Hne].
    + rewrite Hreg in Hc0. injection Hc0 as <-.
      destruct (Hmeta (call_chat_id c) c') as (c2 & Hc2 & Hm2);
        [apply lookup_insert_eq|].
      exists c2. split; [done|]. congruence.
    + apply Hmeta. by rewrite lookup_insert_ne.
Qed.

(** X6.  The answer does not depend on the conversation so far.  Two calls
    on the same session id with the same question and environment, made in
    worlds where the session is registered and the same index is persisted,
    give the same answer or raise the same error, whatever the histories
    and whatever else the worlds hold. *)
Theorem answer_ignores_history (env : Env) (chat_id user_question : string)
    (w1 w2 : World) (kb : FAISS) :
  embeddings_dir w1 !! embedding_path chat_id = Some kb ->
  embeddings_dir w2 !! embedding_path chat_id = Some kb ->
  is_Some (chat_storage w1 !! chat_id) ->
  is_Some (chat_storage w2 !! chat_id) ->
  answer_of (fst (get_response env chat_id user_question w1))
  = answer_of (fst (get_response env chat_id user_question w2)).
Proof.
  intros Hk1 Hk2 [c1 Hc1] [c2 Hc2]. rewrite !get_response_run.
  destruct (negb (truthy (strip chat_id))); [done|].
  destruct (negb (truthy (strip user_question))); [done|].
  rewrite Hc1, Hc2. simpl.
  rewrite !(resolve_hit env chat_id _ kb) by done.
  unfold answer_turn.
  repeat (destruct (negb _) || destruct (similarity_search _ _ _)
          || destruct (model_invoke _ _)); done.
Qed.

(** X7.  A chat call searches at most once and invokes the model at most
    once, and the model only after the search: its log shows no search and
    no model call, or one search (on the question) and no model call, or
    one search followed by one model call.  It can only succeed in the last
    case, and in the first two the model has not been paid for. *)
Theorem chat_calls_providers_at_most_once (env : Env)
    (chat_id user_question : string) (w w' : World) (r : result ChatResponse) :
  get_response env chat_id user_question w = (r, w') ->
  exists evs,
    trace w' = trace w ++ evs
    /\ ((filter (fun ev => is_search ev = true) evs = []
         /\ filter (fun ev => is_model_call ev = true) evs = []
         /\ exists e, r = Raise e)
        \/ (filter (fun ev => is_search ev = true) evs
            = [SimilaritySearch user_question None]
            /\ filter (fun ev => is_model_call ev = true) evs = []
            /\ exists e, r = Raise e)
        \/ (exists prompt,
              filter (fun ev => is_search ev = true) evs
              = [SimilaritySearch user_question None]
              /\ filter (fun ev => is_model_call ev = true) evs
                 = [ModelInvoke prompt]
              /\ ((exists resp, r = Ok resp
                                /\ model_invoke env prompt = Ok (response resp))
                  \/ exists e, model_invoke env prompt = Raise e
                               /\ r = Raise (processing_failure
                                               ("Failed to generate model response: "
                                                +:+ str e))))).
Proof.
  rewrite get_response_run.
  destruct (negb (truthy (strip chat_id))).
  { intros [= <- <-]. exists []. rewrite app_nil_r. split; [done|]. left. by eauto. }
  destruct (negb (truthy (strip user_question))).
  { intros [= <- <-]. exists []. rewrite app_nil_r. split; [done|]. left. by eauto. }
  destruct (chat_storage w !! chat_id) as [chat_data|].
  2:{ intros [= <- <-]. exists [StorageGet chat_id]. split; [done|]. left. by eauto. }
  simpl.
  destruct (get_or_create_knowledge_base env chat_id _) as [r1 w1] eqn:Hres.
  apply resolve_frame in Hres as (_ & _ & evs0 & Htrace & Hquiet).
  simpl in Htrace. rewrite <- app_assoc in Htrace.
  remember ([StorageGet chat_id] ++ evs0) as evs1 eqn:Hevs1.
  assert (filter (fun ev => is_search ev = true) evs1 = []) as Hs0.
  { subst evs1. rewrite filter_app, filter_cons_False by done. simpl.
    apply (filter_resolution_only is_search); [by intros []|done]. }
  assert (filter (fun ev => is_model_call ev = true) evs1 = []) as Hm0.
  { subst evs1. rewrite filter_app, filter_cons_False by done. simpl.
    apply (filter_resolution_only is_model_call); [by intros []|done]. }
  clear Hevs1.
  destruct r1 as [[kb|]|e].
  2,3: intros [= <- <-]; exists evs1; (split; [done|]); left; by eauto.
  unfold answer_turn.
  destruct (negb (has_similarity_search kb)).
  { intros [= <- <-]. exists evs1. split; [done|]. left. by eauto. }
  destruct (similarity_search kb user_question None) as [docs|e].
  2:{ intros [= <- <-]. exists (evs1 ++ [SimilaritySearch user_question None]).
      simpl. rewrite Htrace, <- app_assoc. split; [done|]. right. left.
      rewrite !filter_app, Hs0, Hm0. by eauto. }
  destruct (negb (forallb has_page_content docs)).
  { intros [= <- <-]. exists (evs1 ++ [SimilaritySearch user_question None]).
    simpl. rewrite Htrace, <- app_assoc. split; [done|]. right. left.
    rewrite !filter_app, Hs0, Hm0. by eauto. }
  simpl.
  destruct (model_invoke env _) as [answer|e] eqn:Hanswer; intros [= <- <-];
    exists (evs1 ++ [SimilaritySearch user_question None;
                     ModelInvoke (combined_input (context_of docs) user_question)]);
    simpl; rewrite Htrace, <- app_assoc; (split; [done|]); right; right;
    exists (combined_input (context_of docs) user_question);
    rewrite !filter_app, Hs0, Hm0.
  - split; [done|]. split; [done|]. left. by eauto.
  - split; [done|]. split; [done|]. right. by eauto.
Qed.

(** X8.  Deleting a session from the registry never raises, removes that
    session only and leaves its index file where it is.  A well-formed chat
    call on the deleted id is then answered 404, session not found, after
    the registry alone has been read; the index file is still returned by
    knowledge-base resolution.  Deleting an id that is not registered
    changes nothing. *)
Theorem deleted_session_is_not_found (env : Env) (chat_id question : string)
    (w : World) :
  all_space chat_id = false ->
  all_space question = false ->
  let w1 := snd (storage_delete chat_id w) in
  fst (storage_delete chat_id w) = Ok tt
  /\ chat_storage w1 = delete chat_id (chat_storage w)
  /\ embeddings_dir w1 = embeddings_dir w
  /\ chat env chat_id question w1
     = (HTTPException 404 ("Chat session not found for ID: " +:+ chat_id),
        logged [StorageGet chat_id] w1)
  /\ (forall kb,
        embeddings_dir w !! embedding_path chat_id = Some kb ->
        get_or_create_knowledge_base env chat_id w1
        = (Ok (Some kb), logged [KbLoad (embedding_path chat_id)] w1))
  /\ (chat_storage w !! chat_id = None -> w1 = w).
Proof.
  intros Hid Hq. simpl. split; [done|]. split; [done|]. split; [done|].
  split; [|split].
  - unfold chat. rewrite get_response_run, !truthy_strip, Hid, Hq. simpl.
    by rewrite lookup_delete_eq.
  - intros kb Hkb. by apply resolve_hit.
  - intros Hnone. unfold with_storage. rewrite delete_id by done. by destruct w.
Qed.

(** X9.  After a successful chat call the index of the session is on
    storage, and the knowledge base the session refers to is that index. *)
Theorem successful_chat_leaves_index_persisted (env : Env)
    (chat_id user_question : string) (w w' : World) (resp : ChatResponse) :
  get_response env chat_id user_question w = (Ok resp, w') ->
  exists chat_data,
    chat_storage w' !! chat_id = Some chat_data
    /\ embeddings_dir w' !! embedding_path chat_id
       = Some (knowledge_base chat_data).
Proof.
  intros (chat_data & kb & w1 & docs & _ & Hres & _ & _ & _ & _ & ->)%get_response_ok.
  apply resolve_storage in Hres as [_ Hkb].
  eexists. simpl. rewrite lookup_insert_eq. split; [done|]. simpl. by apply Hkb.
Qed.

(** X10.  What a well-formed chat call on a registered session with a
    persisted index raises when retrieval or generation goes wrong.  Each
    failure is a processing error, never the not-found kind, and its
    message names the stage and keeps the cause: a knowledge base that
    cannot be searched, a search that raises, a search result without text,
    and a model that raises. *)
Theorem chat_failure_messages (env : Env) (chat_id user_question : string)
    (w : World) (kb : FAISS) :
  all_space chat_id = false ->
  all_space user_question = false ->
  is_Some (chat_storage w !! chat_id) ->
  embeddings_dir w !! embedding_path chat_id = Some kb ->
  let outcome := fst (get_response env chat_id user_question w) in
  (has_similarity_search kb = false ->
   outcome
   = Raise (RuntimeError
              "Failed to process chat message: Failed to search document chunks: Invalid knowledge base format"))
  /\ (forall e,
        has_similarity_search kb = true ->
        similarity_search kb user_question None = Raise e ->
        outcome
        = Raise (RuntimeError
                   ("Failed to process chat message: Failed to search document chunks: "
                    +:+ str e)))
  /\ (forall docs,
        has_similarity_search kb = true ->
        similarity_search kb user_question None = Ok docs ->
        forallb has_page_content docs = false ->
        outcome
        = Raise (RuntimeError
                   "Failed to process chat message: Failed to search document chunks: Invalid document format in knowledge base"))
  /\ (forall docs e,
        has_similarity_search kb = true ->
        similarity_search kb user_question None = Ok docs ->
        forallb has_page_content docs = true ->
        model_invoke env
          (combined_input (join " " (omap page_content docs)) user_question)
        = Raise e ->
        outcome
        = Raise (RuntimeError
                   ("Failed to process chat message: Failed to generate model response: "
                    +:+ str e))).
Proof.
  intros Hid Hq [chat_data Hreg] Hkb. simpl.
  rewrite get_response_run, !truthy_strip, Hid, Hq. simpl. rewrite Hreg.
  rewrite (resolve_hit env chat_id _ kb) by done.
  unfold answer_turn, context_of, processing_failure.
  split; [|split; [|split]].
  - by intros ->.
  - intros e -> ->. reflexivity.
  - by intros docs -> -> ->.
  - intros docs e -> -> -> ->. reflexivity.
Qed.

(** X11.  A well-formed chat call made right after a successful ingestion,
    on the identifier it returned, loads the persisted index and does not
    rebuild it: it opens no PDF, builds and saves nothing.  When the search
    on that index and the model succeed, the call returns the model's
    answer and a history of exactly one exchange. *)
Theorem chat_after_ingestion_loads_index (env0 env : Env)
    (file_path chat_id user_question : string) (w0 w : World) :
  process_pdf env0 file_path w0 = (Ok chat_id, w) ->
  all_space chat_id = false ->
  all_space user_question = false ->
  exists kb evs,
    embeddings_dir w !! embedding_path chat_id = Some kb
    /\ trace (snd (get_response env chat_id user_question w))
       = trace w ++ [StorageGet chat_id; KbLoad (embedding_path chat_id)] ++ evs
    /\ Forall (fun ev => is_rebuild ev = false) evs
    /\ forall docs answer,
         has_similarity_search kb = true ->
         similarity_search kb user_question None = Ok docs ->
         forallb has_page_content docs = true ->
         model_invoke env
           (combined_input (join " " (omap page_content docs)) user_question)
         = Ok answer ->
         fst (get_response env chat_id user_question w)
         = Ok {| response := answer;
                 chat_history :=
                   [ {| user := user_question; ai := answer;
                        timestamp := utcnow env 0 |} ] |}.
Proof.
  intros (text & chunks & kb & Hreg & _ & _ & _ & _ & Hkb)%ingestion_sets_up_rebuild
    Hid Hq.
  rewrite get_response_run, !truthy_strip, Hid, Hq. simpl. rewrite Hreg.
  rewrite (resolve_hit env chat_id _ kb) by done.
  unfold answer_turn, context_of.
  destruct (has_similarity_search kb) eqn:Hhas; simpl.
  2:{ exists kb, []. split; [done|]. split; [by rewrite <- app_assoc|].
      split; [done|]. intros docs answer Hhas'. congruence. }
  destruct (similarity_search kb user_question None) as [docs|e] eqn:Hdocs; simpl.
  2:{ exists kb, [SimilaritySearch user_question None]. split; [done|].
      split; [by rewrite <- !app_assoc|]. split; [by repeat constructor|].
      intros docs answer _ Hdocs'. congruence. }
  destruct (forallb has_page_content docs) eqn:Hall; simpl.
  2:{ exists kb, [SimilaritySearch user_question None]. split; [done|].
      split; [by rewrite <- !app_assoc|]. split; [by repeat constructor|].
      intros docs' answer _ Hdocs' Hall'. congruence. }
  destruct (model_invoke env _) as [answer|e] eqn:Hanswer; simpl;
    exists kb, [SimilaritySearch user_question None;
                ModelInvoke
                  (combined_input (join " " (omap page_content docs)) user_question)];
    (split; [done|]; split; [by rewrite <- !app_assoc|];
     split; [by repeat constructor|]);
    intros docs' answer' _ Hdocs' _ Hanswer';
    assert (docs' = docs) as -> by congruence.
  - assert (answer' = answer) as -> by congruence. done.
  - congruence.
Qed.


Lemma lenient_texts_truthy pages :
  Forall (fun t => truthy t = true) (lenient_page_texts pages).
Proof.
  unfold lenient_page_texts. induction pages as [|page pages IH]; simpl; [done|].
  unfold lenient_page_text at 1.
  destruct (extract_text page) as [t|]; [|done].
  destruct (truthy t) eqn:Ht; [|done]. by constructor.
Qed.

Lemma join_empty_truthy (ts : list string) :
  Forall (fun t => truthy t = true) ts -> join "" ts = "" -> ts = [].
Proof.
  destruct 1 as [|t ts Ht _]; [done|].
  destruct t as [|c t]; [done|]. unfold join. simpl. by destruct ts.
Qed.

(** X13.  For a PDF none of whose pages raises, the extracted text is
    empty exactly when every page yields the empty text: such a file is
    read without error, and it is the build that then has nothing to work
    on. *)
Theorem empty_extraction_iff_blank_pages (file_path : string) (w : World)
    (pages : list Page) :
  files w !! file_path = Some (Readable pages) ->
  forallb page_ok pages = true ->
  fst (_extract_text_from_pdf file_path w) = Ok ""
  <-> Forall (fun page => extract_text page = Ok "") pages.
Proof.
  intros Hfile Hok. rewrite extract_run. simpl. unfold extracted.
  rewrite Hfile, page_texts_all_ok by done.
  split.
  - intros [= Hjoin].
    apply join_empty_truthy in Hjoin; [|apply lenient_texts_truthy].
    clear Hfile. induction pages as [|page pages IH]; [done|].
    simpl in Hok. apply andb_true_iff in Hok as [Hpage Hrest].
    unfold lenient_page_texts in Hjoin. simpl in Hjoin.
    unfold lenient_page_text at 1 in Hjoin. unfold page_ok in Hpage.
    destruct (extract_text page) as [t|] eqn:Htext; [|done].
    destruct t as [|c t]; [|done]. simpl in Hjoin.
    constructor; [done|]. by apply IH.
  - intros Hblank. f_equal.
    replace (lenient_page_texts pages) with (@nil string); [done|].
    clear Hfile Hok. induction Hblank as [|page pages Hpage _ IH]; [done|].
    unfold lenient_page_texts in *. simpl.
    unfold lenient_page_text at 1. by rewrite Hpage.
Qed.

(** *** The upload route *)

Lemma upload_path_truthy name :
  truthy (os_path_join UPLOAD_DIRECTORY name) = true.
Proof.
  destruct name as [|c name]; [reflexivity|].
  unfold os_path_join, UPLOAD_DIRECTORY. cbn [startswith].
  destruct (Ascii.eqb "/" c); [by destruct name|reflexivity].
Qed.


(** X15.  An upload that succeeds returns the identifier drawn for it,
    has written the file at the upload path, replacing whatever was there,
    and has registered a session with an empty history whose source path is
    that path and whose knowledge base is the index persisted under the
    identifier. *)
Theorem upload_registers_stored_file (env : Env) (open_raises : option string)
    (file : UploadFile) (w w' : World) (chat_id : string) :
  upload_pdf env open_raises file w = (UploadResponse chat_id, w') ->
  let file_path := os_path_join UPLOAD_DIRECTORY (filename file) in
  open_raises = None
  /\ chat_id = uuid4 env
  /\ files w' = <[file_path := file_content file]> (files w)
  /\ exists chat_data,
       chat_storage w' !! chat_id = Some chat_data
       /\ messages chat_data = []
       /\ metadata chat_data !! "file_path" = Some file_path
       /\ embeddings_dir w' !! embedding_path chat_id
          = Some (knowledge_base chat_data).
Proof.
  unfold upload_pdf. destruct open_raises as [msg|]; [done|].
  destruct (process_pdf env _ _) as [[id|e] w2] eqn:Hingest; [|done].
  intros [= <- <-]. simpl. split; [done|].
  rewrite process_pdf_run in Hingest.
  destruct (extracted _ _) as [text|]; [|done].
  simpl in Hingest. destruct (built text) as [kb|]; [|done].
  destruct (save_local_raises env); [done|].
  injection Hingest as <- <-. simpl. split; [done|]. split; [done|].
  eexists. rewrite !lookup_insert_eq. split; [done|]. simpl.
  by rewrite lookup_insert_eq.
Qed.

(** X16.  Uploads share their path by file name.  When a file is
    uploaded successfully under the name an earlier session was ingested
    from, that session's source is the new file: should its index be lost,
    resolution rebuilds it from the new file, and the index it gets, and
    persists under its own id, is the one built for the new session. *)
Theorem upload_same_name_replaces_source (env env' : Env) (file : UploadFile)
    (w w' : World) (earlier later : string) (chat_data : PDFChat) :
  chat_storage w !! earlier = Some chat_data ->
  metadata chat_data !! "file_path"
  = Some (os_path_join UPLOAD_DIRECTORY (filename file)) ->
  upload_pdf env None file w = (UploadResponse later, w') ->
  later <> earlier ->
  save_local_raises env' = None ->
  exists kb,
    (knowledge_base <$> chat_storage w' !! later) = Some kb
    /\ exists w'',
         get_or_create_knowledge_base env' earlier
           (with_embeddings (delete (embedding_path earlier) (embeddings_dir w')) w')
         = (Ok (Some kb), w'')
         /\ embeddings_dir w'' !! embedding_path earlier = Some kb.
Proof.
  intros Hreg Hpath Hupload Hne Hsave. unfold upload_pdf in Hupload.
  destruct (process_pdf env _ _) as [[id|e] w2] eqn:Hingest; [|done].
  injection Hupload as <- <-.
  rewrite process_pdf_run in Hingest.
  destruct (extracted _ _) as [text|] eqn:Htext; [|done].
  simpl in Hingest. unfold built in Hingest.
  destruct (split_text text) as [chunks|] eqn:Hchunks; [|done].
  destruct (from_texts chunks) as [kb|] eqn:Hkb; [|done].
  destruct (save_local_raises env); [done|].
  injection Hingest as <- <-. exists kb. simpl.
  rewrite lookup_insert_eq. split; [done|].
  eexists. split.
  - apply (resolve_rebuild env' earlier _ chat_data
             (os_path_join UPLOAD_DIRECTORY (filename file)) text chunks kb);
      try done.
    + simpl. apply lookup_delete_eq.
    + simpl. by rewrite lookup_insert_ne.
    + apply upload_path_truthy.
  - simpl. apply lookup_insert_eq.
Qed.


End Frames.

(** *** The configuration *)

(** X17.  Loading the environment fails when the API key is defined
    neither in the process environment nor by the file the loader reads;
    otherwise it succeeds and the environment is exactly what the loader
    made of it. *)
Theorem load_env_needs_the_key
    (load_dotenv : gmap string string -> gmap string string)
    (environ : gmap string string) :
  (load_dotenv environ !! "OPENAI_API_KEY" = None ->
   load_env load_dotenv environ = Raise (Exception "str expected, not NoneType"))
  /\ (is_Some (load_dotenv environ !! "OPENAI_API_KEY") ->
      load_env load_dotenv environ = Ok (load_dotenv environ)).
Proof.
  unfold load_env. split.
  - by intros ->.
  - intros [value Hvalue]. rewrite Hvalue. f_equal. by apply insert_id.
Qed.

End Coverage.

(** ** The further properties on the demo instances *)

Module CoverageScenarios.
Import PyStr TextSplitter Backend Observations Routes Demo Workbench Coverage.

#[local] Existing Instance demo_providers.

Lemma sky_ingestion_registers_3f2b :
  "3f2b" = uuid4 demo_env.
Proof.
  apply (proj1 (ingestion_registers_one_session demo_env "uploads/sky.pdf"
                  fresh_world sky_world "3f2b" ltac:(vm_compute; reflexivity))).
Defined.

Lemma missing_and_blank_files_stop_ingestion :
  process_pdf demo_env "uploads/none.pdf" fresh_world
  = (Raise (RuntimeError
              "Failed to process PDF: Failed to extract text from PDF: [Errno 2] No such file or directory: 'uploads/none.pdf'"),
     logged [PdfOpen "uploads/none.pdf"] fresh_world)
  /\ exists evs,
       process_pdf demo_env "uploads/blank.pdf" fresh_world
       = (Raise (RuntimeError
                   "Failed to process PDF: Failed to create knowledge base: list index out of range"),
          logged (PdfOpen "uploads/blank.pdf" :: evs) fresh_world)
       /\ Forall (fun ev => exists chunks, ev = KbBuild chunks) evs.
Proof.
  split.
  - apply (proj1 (ingestion_stops_at_first_failure demo_env "uploads/none.pdf"
                    fresh_world)
             (RuntimeError
                "Failed to extract text from PDF: [Errno 2] No such file or directory: 'uploads/none.pdf'")).
    vm_compute. reflexivity.
  - apply (proj2 (ingestion_stops_at_first_failure demo_env "uploads/blank.pdf"
                    fresh_world) ""
             (RuntimeError "Failed to create knowledge base: list index out of range")).
    + vm_compute. reflexivity.
    + vm_compute. reflexivity.
Defined.

Lemma sky_chat_leaves_files_alone :
  files (snd (get_response demo_env "3f2b" sky_question sky_world))
  = files sky_world.
Proof.
  apply (proj1 (chat_touches_one_session demo_env "3f2b" sky_question sky_world
                  (snd (get_response demo_env "3f2b" sky_question sky_world))
                  (fst (get_response demo_env "3f2b" sky_question sky_world))
                  ltac:(vm_compute; reflexivity))).
Defined.

Lemma sky_chat_leaves_embeddings_alone :
  embeddings_dir (snd (get_response demo_env "3f2b" sky_question sky_world))
  = embeddings_dir sky_world.
Proof.
  apply (proj2 (chat_writes_at_most_its_index demo_env "3f2b" sky_question sky_world
                  (snd (get_response demo_env "3f2b" sky_question sky_world))
                  (fst (get_response demo_env "3f2b" sky_question sky_world))
                  ltac:(vm_compute; reflexivity))).
  vm_compute. eauto.
Defined.

Lemma sky_session_outlives_three_calls :
  exists chat_data',
    chat_storage (snd (run_chats sky_calls sky_world)) !! "3f2b" = Some chat_data'
    /\ metadata chat_data' = metadata sky_chat.
Proof.
  apply (proj2 (proj2 (chats_keep_sessions sky_calls sky_world)) "3f2b" sky_chat).
  vm_compute. reflexivity.
Defined.

Lemma same_answer_with_and_without_history :
  answer_of (fst (get_response demo_env "3f2b" sky_question sky_world))
  = answer_of
      (fst (get_response demo_env "3f2b" sky_question
              (snd (get_response demo_env "3f2b" "And grass?" sky_world)))).
Proof.
  apply (answer_ignores_history demo_env "3f2b" sky_question sky_world
           (snd (get_response demo_env "3f2b" "And grass?" sky_world)) [sky_text]).
  - vm_compute. reflexivity.
  - vm_compute. reflexivity.
  - vm_compute. eauto.
  - vm_compute. eauto.
Defined.

Lemma sky_call_log_has_a_shape :
  exists evs,
    trace (snd (get_response demo_env "3f2b" sky_question sky_world))
    = trace sky_world ++ evs
    /\ ((filter (fun ev => is_search ev = true) evs = []
         /\ filter (fun ev => is_model_call ev = true) evs = []
         /\ exists e, fst (get_response demo_env "3f2b" sky_question sky_world)
                      = Raise e)
        \/ (filter (fun ev => is_search ev = true) evs
            = [SimilaritySearch sky_question None]
            /\ filter (fun ev => is_model_call ev = true) evs = []
            /\ exists e, fst (get_response demo_env "3f2b" sky_question sky_world)
                         = Raise e)
        \/ (exists prompt,
              filter (fun ev => is_search ev = true) evs
              = [SimilaritySearch sky_question None]
              /\ filter (fun ev => is_model_call ev = true) evs
                 = [ModelInvoke prompt]
              /\ ((exists resp,
                     fst (get_response demo_env "3f2b" sky_question sky_world)
                     = Ok resp
                     /\ model_invoke demo_env prompt = Ok (response resp))
                  \/ exists e,
                       model_invoke demo_env prompt = Raise e
                       /\ fst (get_response demo_env "3f2b" sky_question sky_world)
                          = Raise (processing_failure
                                     ("Failed to generate model response: "
                                      +:+ str e))))).
Proof.
  apply (chat_calls_providers_at_most_once demo_env "3f2b" sky_question sky_world).
  vm_compute. reflexivity.
Defined.

Lemma deleted_sky_session_is_not_found :
  chat demo_env "3f2b" sky_question (snd (storage_delete "3f2b" sky_world))
  = (HTTPException 404 "Chat session not found for ID: 3f2b",
     logged [StorageGet "3f2b"] (snd (storage_delete "3f2b" sky_world))).
Proof.
  apply (deleted_session_is_not_found demo_env "3f2b" sky_question sky_world);
    reflexivity.
Defined.

Lemma sky_index_still_persisted_after_chat :
  exists chat_data,
    chat_storage (snd (get_response demo_env "3f2b" sky_question sky_world))
      !! "3f2b" = Some chat_data
    /\ embeddings_dir (snd (get_response demo_env "3f2b" sky_question sky_world))
         !! "3f2b.faiss" = Some (knowledge_base chat_data).
Proof.
  apply (successful_chat_leaves_index_persisted demo_env "3f2b" sky_question
           sky_world _ sky_response).
  vm_compute. reflexivity.
Defined.

Lemma fragile_stores_fail_with_their_stage :
  fst (@get_response fragile_providers demo_env "s" "Hi" (fragile_world 0))
  = Raise (RuntimeError
             "Failed to process chat message: Failed to search document chunks: Invalid knowledge base format")
  /\ fst (@get_response fragile_providers demo_env "s" "Hi" (fragile_world 1))
     = Raise (RuntimeError
                "Failed to process chat message: Failed to search document chunks: index corrupted")
  /\ fst (@get_response fragile_providers demo_env "s" "Hi" (fragile_world 2))
     = Raise (RuntimeError
                "Failed to process chat message: Failed to search document chunks: Invalid document format in knowledge base")
  /\ fst (@get_response fragile_providers offline_env "s" "Hi" (fragile_world 3))
     = Raise (RuntimeError
                "Failed to process chat message: Failed to generate model response: connection refused").
Proof.
  split; [|split; [|split]].
  - apply (proj1 (@chat_failure_messages fragile_providers demo_env "s" "Hi"
                    (fragile_world 0) 0%nat
                    ltac:(reflexivity) ltac:(reflexivity)
                    ltac:(vm_compute; eauto) ltac:(vm_compute; reflexivity))).
    reflexivity.
  - apply (proj1 (proj2 (@chat_failure_messages fragile_providers demo_env "s" "Hi"
                           (fragile_world 1) 1%nat
                           ltac:(reflexivity) ltac:(reflexivity)
                           ltac:(vm_compute; eauto) ltac:(vm_compute; reflexivity)))
             (Exception "index corrupted")); reflexivity.
  - apply (proj1 (proj2 (proj2 (@chat_failure_messages fragile_providers demo_env
                                  "s" "Hi" (fragile_world 2) 2%nat
                                  ltac:(reflexivity) ltac:(reflexivity)
                                  ltac:(vm_compute; eauto)
                                  ltac:(vm_compute; reflexivity))))
             [ {| page_content := None |} ]); reflexivity.
  - apply (proj2 (proj2 (proj2 (@chat_failure_messages fragile_providers offline_env
                                  "s" "Hi" (fragile_world 3) 3%nat
                                  ltac:(reflexivity) ltac:(reflexivity)
                                  ltac:(vm_compute; eauto)
                                  ltac:(vm_compute; reflexivity))))
             [ {| page_content := Some "a chunk" |} ]
             (Exception "connection refused")); reflexivity.
Defined.

Lemma sky_chat_right_after_ingestion :
  exists kb evs,
    embeddings_dir sky_world !! "3f2b.faiss" = Some kb
    /\ trace (snd (get_response demo_env "3f2b" sky_question sky_world))
       = trace sky_world ++ [StorageGet "3f2b"; KbLoad "3f2b.faiss"] ++ evs
    /\ Forall (fun ev => is_rebuild ev = false) evs
    /\ forall docs answer,
         has_similarity_search kb = true ->
         similarity_search kb sky_question None = Ok docs ->
         forallb has_page_content docs = true ->
         model_invoke demo_env
           (combined_input (join " " (omap page_content docs)) sky_question)
         = Ok answer ->
         fst (get_response demo_env "3f2b" sky_question sky_world)
         = Ok {| response := answer;
                 chat_history :=
                   [ {| user := sky_question; ai := answer;
                        timestamp := utcnow demo_env 0 |} ] |}.
Proof.
  apply (chat_after_ingestion_loads_index demo_env demo_env "uploads/sky.pdf"
           "3f2b" sky_question fresh_world sky_world).
  - vm_compute. reflexivity.
  - reflexivity.
  - reflexivity.
Defined.


Lemma blank_pdf_extracts_to_nothing :
  fst (_extract_text_from_pdf "uploads/blank.pdf" fresh_world) = Ok ""
  <-> Forall (fun page => extract_text page = Ok "")
        [ {| extract_text := Ok "" |}; {| extract_text := Ok "" |} ].
Proof.
  apply (empty_extraction_iff_blank_pages "uploads/blank.pdf" fresh_world).
  - vm_compute. reflexivity.
  - reflexivity.
Defined.


Lemma sky_upload_is_stored_and_registered :
  "3f2b" = uuid4 demo_env
  /\ files uploaded_world
     = <[os_path_join UPLOAD_DIRECTORY "sky.pdf" := sky_pdf]> (files empty_world).
Proof.
  pose proof (upload_registers_stored_file demo_env None sky_upload empty_world
                uploaded_world "3f2b" ltac:(vm_compute; reflexivity))
    as (_ & Hid & Hfiles & _).
  split; [exact Hid|exact Hfiles].
Defined.

Lemma sea_replaces_sky :
  exists kb,
    (knowledge_base
       <$> chat_storage (snd (upload_pdf second_env None sea_upload uploaded_world))
           !! "7c1d") = Some kb
    /\ exists w'',
         get_or_create_knowledge_base demo_env "3f2b"
           (with_embeddings
              (delete (embedding_path "3f2b")
                 (embeddings_dir
                    (snd (upload_pdf second_env None sea_upload uploaded_world))))
              (snd (upload_pdf second_env None sea_upload uploaded_world)))
         = (Ok (Some kb), w'')
         /\ embeddings_dir w'' !! embedding_path "3f2b" = Some kb.
Proof.
  apply (upload_same_name_replaces_source second_env demo_env sea_upload
           uploaded_world _ "3f2b" "7c1d" uploaded_sky_chat).
  - vm_compute. reflexivity.
  - vm_compute. reflexivity.
  - vm_compute. reflexivity.
  - discriminate.
  - reflexivity.
Defined.

Example sea_index_serves_the_sky_session :
  fst (get_or_create_knowledge_base demo_env "3f2b"
         (with_embeddings
            (delete (embedding_path "3f2b")
               (embeddings_dir
                  (snd (upload_pdf second_env None sea_upload uploaded_world))))
            (snd (upload_pdf second_env None sea_upload uploaded_world))))
  = Ok (Some ["The sea is deep."]).
Proof. vm_compute. reflexivity. Qed.


Lemma key_missing_or_present :
  load_env (fun environ => environ) ∅
  = Raise (Exception "str expected, not NoneType")
  /\ load_env (fun environ => environ) {[ "OPENAI_API_KEY" := "sk-demo" ]}
     = Ok {[ "OPENAI_API_KEY" := "sk-demo" ]}.
Proof.
  split.
  - apply (proj1 (load_env_needs_the_key (fun environ => environ) ∅)).
    vm_compute. reflexivity.
  - apply (proj2 (load_env_needs_the_key (fun environ => environ)
                    {[ "OPENAI_API_KEY" := "sk-demo" ]})).
    vm_compute. eauto.
Defined.

End CoverageScenarios.
